(** * covid-papers-browser: the Elasticsearch loader and the query client

    A shallow embedding of
    - [src/data_providers/ElasticSearchProvider.py] (class [ElasticSearchProvider]),
    - [src/searchers/ElasticSearcher.py] (class [Elasticsearcher]),
    and the properties of their batching, truncation, tagging, error handling
    and query construction.

    Python dictionaries are finite maps from strings to values, the engine is
    reached through a transport that answers every request with a status and
    a body, and everything a method does to the outside world (requests, log
    lines, files opened) is appended to a trace. *)

From stdpp Require Import base gmap strings list fin_maps.
From Stdlib Require Import ZArith Lia.

Local Open Scope string_scope.
Local Open Scope list_scope.
Local Open Scope Z_scope.
Local Set Warnings "-register-all".

(** ** Python values *)

(** The values that occur in a pickled record and in a request body.  A
    finite binary float is the dyadic rational [mantissa * 2 ^ exponent]; the
    program never computes with the floats of an embedding, it only moves
    them. *)
Inductive value : Type :=
| VNone
| VBool (b : bool)
| VInt (z : Z)
| VFloat (mantissa exponent : Z)
| VStr (s : string)
| VList (items : list value)
| VDict (fields : gmap string value).

(** A document record, an index mapping and a request body are [dict]s with
    string keys. *)
Abbreviation record := (gmap string value).

(** The exceptions (all of them subclasses of [Exception]) that the program
    can meet. *)
Inductive exn : Type :=
| KeyError (key : string)
| UnboundLocalError (name : string)
| TypeError
| OSError (errno : Z)
| UnpicklingError
| TransportError (status : Z).

Inductive result (A : Type) : Type :=
| Ok (a : A)
| Raise (e : exn).
Arguments Ok {A} a.
Arguments Raise {A} e.

(** *** Subscripts *)

(** [d[key]] on a dict. *)
Definition getitem (d : record) (key : string) : result value :=
  match d !! key with
  | Some v => Ok v
  | None => Raise (KeyError key)
  end.

(** [key in d]. *)
Definition contains (d : record) (key : string) : bool :=
  bool_decide (is_Some (d !! key)).

(** The number of elements that [x[:stop]] keeps of a sequence of [len]
    elements: a negative [stop] counts from the end. *)
Definition slice_stop (stop : Z) (len : nat) : nat :=
  if 0 <=? stop then Nat.min (Z.to_nat stop) len
  else Z.to_nat (Z.max 0 (Z.of_nat len + stop)).

(** [x[:stop]]: lists and strings can be sliced, the other values cannot.
    A string is cut by characters, which are bytes here. *)
Definition slice_to (x : value) (stop : Z) : result value :=
  match x with
  | VList items => Ok (VList (take (slice_stop stop (length items)) items))
  | VStr s => Ok (VStr (String.substring 0 (slice_stop stop (String.length s)) s))
  | VNone | VBool _ | VInt _ | VFloat _ _ | VDict _ => Raise TypeError
  end.

(** [{**a, **b}]: the fields of [a], then those of [b], which win. *)
Definition dict_merge (a b : record) : record := b ∪ a.

(** ** The outside world *)

(** What the client library sends to the engine. *)
Inductive request : Type :=
| IndicesDelete (index : string)
| IndicesCreate (index : string) (body : record)
| Bulk (actions : list record)
| Search (index : string) (body : record).

Record response : Type := Response { status : Z; body : value }.

Inductive log_message : Type :=
| CreatingIndex (index_name : string)
| CreatingDocuments
| FoundFiles (n : nat) (root : string)
| LoadingEntries (file_path : string)
| ErrorProcessing (e : exn) (file_path : string).

(** What happens on the machine of the program: log lines and files
    opened. *)
Inductive local_event : Type :=
| LogInfo (m : log_message)
| LogWarning (m : log_message)
| Open (file_path : string).

Inductive event : Type :=
| EvRequest (r : request)
| EvLocal (l : local_event).

(** The requests of a trace, in order. *)
Definition requests (t : list event) : list request :=
  omap (fun e => match e with EvRequest r => Some r | EvLocal _ => None end) t.

(** The local events of a trace, in order. *)
Definition locals (t : list event) : list local_event :=
  omap (fun e => match e with EvLocal l => Some l | EvRequest _ => None end) t.

(** The files opened, in order. *)
Definition opened (ls : list local_event) : list string :=
  omap (fun l => match l with Open p => Some p | _ => None end) ls.

(** ** Generators *)

(** A generator body runs when its consumer asks for the next record: what
    it does before the next [yield] happens then.  A generator without
    [send] is the list of what it emits and yields, and how it finishes. *)
Inductive gen_item : Type :=
| Emit (l : local_event)
| Yield (entry : record).

Record generator : Type := Generator {
  items : list gen_item;
  finish : result unit
}.

(** The records a generator yields, in order. *)
Definition yielded (its : list gen_item) : list record :=
  omap (fun it => match it with Yield r => Some r | Emit _ => None end) its.

(** The local events of a generator, in order. *)
Definition emitted (its : list gen_item) : list local_event :=
  omap (fun it => match it with Emit l => Some l | Yield _ => None end) its.

(** Generator bodies: a computation emits and yields, and returns or
    raises. *)
Definition Gen (A : Type) : Type := (list gen_item * result A)%type.

Definition gret {A} (a : A) : Gen A := ([], Ok a).
Definition graise {A} (e : exn) : Gen A := ([], Raise e).
Definition gbind {A B} (m : Gen A) (k : A -> Gen B) : Gen B :=
  match m with
  | (out, Ok a) => let (out', r) := k a in (out ++ out', r)
  | (out, Raise e) => (out, Raise e)
  end.
Definition gyield (entry : record) : Gen unit := ([Yield entry], Ok tt).
Definition gemit (l : local_event) : Gen unit := ([Emit l], Ok tt).
Definition glift {A} (r : result A) : Gen A := ([], r).

(** [try: m except Exception as e: handler e]. *)
Definition gtry {A} (m : Gen A) (handler : exn -> Gen A) : Gen A :=
  match m with
  | (out, Ok a) => (out, Ok a)
  | (out, Raise e) => let (out', r) := handler e in (out ++ out', r)
  end.

(** [for x in xs: body x]. *)
Fixpoint gfor {A} (xs : list A) (body : A -> Gen unit) : Gen unit :=
  match xs with
  | [] => gret tt
  | x :: xs' => gbind (body x) (fun _ => gfor xs' body)
  end.

Definition run_generator (m : Gen unit) : generator :=
  {| items := m.1; finish := m.2 |}.

(** ** Methods: state and exceptions *)

Definition M (S A : Type) : Type := S -> result A * S.

Definition ret {S A} (a : A) : M S A := fun s => (Ok a, s).
Definition raise {S A} (e : exn) : M S A := fun s => (Raise e, s).
Definition bind {S A B} (m : M S A) (k : A -> M S B) : M S B :=
  fun s =>
    match m s with
    | (Ok a, s') => k a s'
    | (Raise e, s') => (Raise e, s')
    end.
Definition gets {S A} (f : S -> A) : M S A := fun s => (Ok (f s), s).
Definition modify {S} (f : S -> S) : M S unit := fun s => (Ok tt, f s).

Declare Scope method_scope.
Delimit Scope method_scope with method.
Notation "'let*' x ':=' m 'in' k" := (bind m (fun x => k))
  (at level 10, x name, m at level 100, k at level 200) : method_scope.
Notation "'do' m 'then' k" := (bind m (fun _ => k))
  (at level 10, m at level 100, k at level 200) : method_scope.

(** Plain results compose the same way. *)
Definition rbind {A B} (r : result A) (k : A -> result B) : result B :=
  match r with
  | Ok a => k a
  | Raise e => Raise e
  end.

(** The world a method runs in: the engine behind the client, and the trace
    of what has happened so far. *)
Record world (E : Type) : Type := World { engine : E; trace : list event }.
Arguments World {E} engine trace.
Arguments engine {E} w.
Arguments trace {E} w.

Definition emit {E} (l : local_event) : M (world E) unit :=
  modify (fun w => World (engine w) (trace w ++ [EvLocal l])).

Module logging.
Definition info {E} (m : log_message) : M (world E) unit :=
  emit (LogInfo m).
Definition warning {E} (m : log_message) : M (world E) unit :=
  emit (LogWarning m).
End logging.

(** ** The client library *)

(** The part of the [elasticsearch] package that the program relies on.  The
    engine answers a request with a status and a body.  The client returns
    the body when the status is a success or is listed in [ignore], and
    raises otherwise.  [helpers.bulk] is one [Bulk] request for the list it
    is given. *)
Module Elasticsearch.
Section Client.
Context {E : Type} (perform : request -> E -> response * E).

Definition perform_request (ignore : list Z) (r : request)
  : M (world E) value :=
  fun w =>
    let (resp, e') := perform r (engine w) in
    let w' := World e' (trace w ++ [EvRequest r]) in
    if (200 <=? status resp) && (status resp <? 300)
    then (Ok (body resp), w')
    else if bool_decide (status resp ∈ ignore)
    then (Ok (body resp), w')
    else (Raise (TransportError (status resp)), w').

Definition indices_delete (index : string) (ignore : list Z)
  : M (world E) value :=
  perform_request ignore (IndicesDelete index).

Definition indices_create (index : string) (body : record)
  : M (world E) value :=
  perform_request [] (IndicesCreate index body).

Definition search (index : string) (body : record) : M (world E) value :=
  perform_request [] (Search index body).

Definition bulk (actions : list record) : M (world E) value :=
  perform_request [] (Bulk actions).
End Client.
End Elasticsearch.

(** ** Files *)

(** A pickle file on disk: it cannot be opened, or it cannot be
    deserialized, or it holds a list of records. *)
Inductive file : Type :=
| OpenFails (e : exn)
| LoadFails (e : exn)
| Pickled (entries : list record).

Record filesystem : Type := Filesystem {
  glob_pkl : string -> list string;
  content : string -> file
}.

(** Reading a local variable of a function: the name is bound or not. *)
Definition load_fast {A} (name : string) (binding : option A) : result A :=
  match binding with
  | Some a => Ok a
  | None => Raise (UnboundLocalError name)
  end.

(** [with open(file_path, 'rb') as f: pickle.load(f)]. *)
Definition pickle_load (f : file) : result (list record) :=
  match f with
  | OpenFails e => Raise e
  | LoadFails e => Raise e
  | Pickled entries => Ok entries
  end.

(** ** ElasticSearchProvider *)

Module ElasticSearchProvider.

(** The fields of the dataclass, but for [client]: the engine that the
    client talks to is in the world of the methods. *)
Record t : Type := Make {
  entries : generator;
  index_file : record;
  doc : list record;
  index_name : string
}.

Definition default_index_name : string := "covid-19".
Definition default_batch_size : Z := 128.
Definition default_n_paragraphs : Z := 100.

Definition with_doc (self : t) (d : list record) : t :=
  Make (entries self) (index_file self) d (index_name self).

Definition with_entries (self : t) (g : generator) : t :=
  Make g (index_file self) (doc self) (index_name self).

(** Lines 69-75: the record sent to the bulk endpoint. *)
Definition entry_elastic (index_name : string) (entry : record) : record :=
  dict_merge entry
    {[ "_op_type" := VStr "index"; "_index" := VStr index_name ]}.

(** Lines 122-126 and 152-156: the truncation of the paragraphs.  The
    entries of a file are taken to be distinct objects, so that what the
    assignments do to one entry is seen through that entry only. *)
Definition truncate (n_paragraphs : Z) (entry : record) : result record :=
  if contains entry "paragraphs" then
    rbind (getitem entry "paragraphs") (fun p =>
    rbind (slice_to p n_paragraphs) (fun p' =>
    let entry := <["paragraphs" := p']> entry in
    rbind (getitem entry "paragraphs_embeddings") (fun pe =>
    rbind (slice_to pe n_paragraphs) (fun pe' =>
    Ok (<["paragraphs_embeddings" := pe']> entry)))))
  else Ok entry.

(** Lines 121-128 and 151-158: the loop over the entries of one file.
    [tqdm] draws a progress bar and passes the entries on; it is left out
    here and in line 68. *)
Definition stream_entries (n_paragraphs : Z) (entries : list record)
  : Gen unit :=
  gfor entries (fun entry =>
    gbind (glift (truncate n_paragraphs entry)) gyield).

(** Lines 115-133: the [try] statement, for one file. *)
Definition from_pkls_file (fs : filesystem) (n_paragraphs : Z)
  (file_path : string) : Gen unit :=
  gtry
    (gbind (gemit (Open file_path)) (fun _ =>
     gbind (glift (pickle_load (content fs file_path))) (fun entries =>
     gbind (gemit (LogInfo (LoadingEntries file_path))) (fun _ =>
     stream_entries n_paragraphs entries))))
    (fun e => gemit (LogWarning (ErrorProcessing e file_path))).

(** Lines 113-133: the generator of [from_pkls]. *)
Definition from_pkls_stream (fs : filesystem) (filepaths : list string)
  (n_paragraphs : Z) : Gen unit :=
  gfor filepaths (from_pkls_file fs n_paragraphs).

(** Lines 150-160: the generator of [from_pkl].  Line 160, [del entries],
    stands in the body of [_stream]: a name that a function body assigns or
    deletes is a local variable of that function, so the [entries] of
    [_stream] is not the [entries] of line 146, and nothing has bound it
    when line 151 reads it. *)
Definition from_pkl_stream (outer_entries : list record) (n_paragraphs : Z)
  : Gen unit :=
  let entries : option (list record) := None in
  gbind (glift (load_fast "entries" entries)) (fun entries =>
  stream_entries n_paragraphs entries).

Section Methods.
Context {E : Type} (perform : request -> E -> response * E).

Abbreviation state := (t * world E)%type.

Definition lift {A} (m : M (world E) A) : M state A :=
  fun s => let (r, w') := m s.2 in (r, (s.1, w')).

Definition this : M state t := gets fst.

Definition set_doc (d : list record) : M state unit :=
  modify (fun s => (with_doc s.1 d, s.2)).

Definition set_entries (g : generator) : M state unit :=
  modify (fun s => (with_entries s.1 g, s.2)).

(** [for entry in self.entries: body entry], on a generator: what the
    generator does up to its next [yield] happens when the loop asks for
    the next entry, and an exception of the generator leaves the loop. *)
Fixpoint for_entries (its : list gen_item) (fin : result unit)
  (body : record -> M state unit) : M state unit :=
  match its with
  | [] =>
      do set_entries (Generator [] (Ok tt)) then
      match fin with
      | Ok _ => ret tt
      | Raise e => raise e
      end
  | Emit l :: its' =>
      do lift (emit l) then for_entries its' fin body
  | Yield entry :: its' =>
      do set_entries (Generator its' fin) then
      do body entry then
      for_entries its' fin body
  end%method.

(** Line 54. *)
Definition drop : M state value :=
  (let* self := this in
   lift (Elasticsearch.indices_delete perform (index_name self) [404]))%method.

(** Line 59. *)
Definition create_index : M state value :=
  (let* self := this in
   lift (Elasticsearch.indices_create perform (index_name self)
           (index_file self)))%method.

(** Lines 69-77. *)
Definition append_entry (entry : record) : M state unit :=
  (let* self := this in
   set_doc (doc self ++ [entry_elastic (index_name self) entry]))%method.

(** Lines 80-81. *)
Definition flush : M state unit :=
  (let* self := this in
   do lift (Elasticsearch.bulk perform (doc self)) then
   set_doc [])%method.

(** Lines 69-81: the body of the loop. *)
Definition bulk_step (batch_size : Z) (entry : record) : M state unit :=
  (do append_entry entry then
   let* self := this in
   let should_bulk := Z.of_nat (length (doc self)) >=? batch_size in
   if should_bulk then flush else ret tt)%method.

(** Lines 61-81. *)
Definition create_and_bulk_documents (batch_size : Z) : M state unit :=
  (let* self := this in
   for_entries (items (entries self)) (finish (entries self))
     (bulk_step batch_size))%method.

(** Lines 83-96. *)
Definition __call__ (batch_size : Z) : M state t :=
  (do drop then
   let* self := this in
   do lift (logging.info (CreatingIndex (index_name self))) then
   do create_index then
   do lift (logging.info CreatingDocuments) then
   do create_and_bulk_documents batch_size then
   this)%method.

(** Lines 102-135. *)
Definition from_pkls (fs : filesystem) (root : string) (n_paragraphs : Z)
  (index_file : record) : M (world E) t :=
  (let filepaths := glob_pkl fs root in
   do logging.info (FoundFiles (length filepaths) root) then
   ret (Make (run_generator (from_pkls_stream fs filepaths n_paragraphs))
          index_file [] default_index_name))%method.

(** Lines 137-162. *)
Definition from_pkl (fs : filesystem) (file_path : string)
  (n_paragraphs : Z) (index_file : record) : M (world E) t :=
  (do emit (Open file_path) then
   let* entries := (fun w => (pickle_load (content fs file_path), w)) in
   do logging.info (LoadingEntries file_path) then
   ret (Make (run_generator (from_pkl_stream entries n_paragraphs))
          index_file [] default_index_name))%method.
End Methods.
End ElasticSearchProvider.

(** ** Elasticsearcher *)

Module Elasticsearcher.

Record t : Type := Make { index_name : string }.

Definition default_index_name : string := "covid-19".

(** Lines 14-27. *)
Definition script_query (vector : list value) : record :=
  {[ "script_score" := VDict
       {[ "query" := VDict {[ "match_all" := VDict ∅ ]};
          "script" := VDict
            {[ "source" := VStr
                 "cosineSimilarity(params.query_vector, doc['title_abstract_embeddings']) + 1.0";
               "params" := VDict {[ "query_vector" := VList vector ]} ]} ]} ]}.

(** Lines 31-37: the [body] of the search. *)
Definition request_body (vector : list value) : record :=
  {[ "size" := VInt 25;
     "query" := VDict (script_query vector);
     "_source" := VDict
       {[ "includes" := VList [VStr "title"; VStr "abstract"] ]} ]}.

Section Methods.
Context {E : Type} (perform : request -> E -> response * E).

(** Lines 13-39. *)
Definition __call__ (self : t) (vector : list value) : M (world E) value :=
  (let* res :=
     Elasticsearch.search perform (index_name self) (request_body vector) in
   ret res)%method.
End Methods.
End Elasticsearcher.

(** ** The loop of create_and_bulk_documents, statement by statement *)

(** Lines 68-81 as a transition system on the buffer [self.doc]: where the
    loop is, the entries it has not read yet, and the buffer. *)
Module BulkLoop.

Inductive point : Type :=
| LoopHead      (* line 68, before the next entry is read *)
| Appended      (* line 78, after [self.doc.append] *)
| Bulked        (* line 81, after [bulk] has returned *)
| Cleared.      (* after line 81, [self.doc = []] *)

Record config : Type := Config {
  at_point : point;
  unread : list record;
  buffer : list record
}.

Inductive step (index_name : string) (batch_size : Z)
  : config -> config -> Prop :=
| step_append entry rest d :
    step index_name batch_size
      (Config LoopHead (entry :: rest) d)
      (Config Appended rest
         (d ++ [ElasticSearchProvider.entry_elastic index_name entry]))
| step_bulk rest d :
    (Z.of_nat (length d) >=? batch_size) = true ->
    step index_name batch_size (Config Appended rest d) (Config Bulked rest d)
| step_no_bulk rest d :
    (Z.of_nat (length d) >=? batch_size) = false ->
    step index_name batch_size (Config Appended rest d) (Config LoopHead rest d)
| step_clear rest d :
    step index_name batch_size (Config Bulked rest d) (Config Cleared rest [])
| step_next rest d :
    step index_name batch_size (Config Cleared rest d) (Config LoopHead rest d).

(** The configurations of a run that starts with the buffer [d0]. *)
Definition reachable (index_name : string) (batch_size : Z)
  (entries d0 : list record) (c : config) : Prop :=
  rtc (step index_name batch_size) (Config LoopHead entries d0) c.

(** What holds of the buffer at each point of the loop. *)
Definition buffer_invariant (batch_size : Z) (c : config) : Prop :=
  match at_point c with
  | LoopHead => Z.of_nat (length (buffer c)) < batch_size
  | Appended | Bulked => Z.of_nat (length (buffer c)) <= batch_size
  | Cleared => buffer c = []
  end.

End BulkLoop.

(** ** An engine to run the methods on *)

(** A small engine for concrete runs: an index is the list of the documents
    written to it.  Deleting an index that is missing answers 404, creating
    one that exists answers 400, a search on a missing index answers 404.
    The ranking of a search is not modelled: the hits are the documents of
    the index. *)
Module ReferenceEngine.

Abbreviation t := (gmap string (list record)).

Definition acknowledged : value := VDict {[ "acknowledged" := VBool true ]}.
Definition error (reason : string) : value :=
  VDict {[ "error" := VStr reason ]}.

Definition index_action (e : t) (action : record) : t :=
  match action !! "_index" with
  | Some (VStr index) =>
      <[index := default [] (e !! index)
                  ++ [delete "_op_type" (delete "_index" action)]]> e
  | _ => e
  end.

Definition perform (r : request) (e : t) : response * t :=
  match r with
  | IndicesDelete index =>
      match e !! index with
      | Some _ => (Response 200 acknowledged, delete index e)
      | None => (Response 404 (error "index_not_found_exception"), e)
      end
  | IndicesCreate index _ =>
      match e !! index with
      | Some _ =>
          (Response 400 (error "resource_already_exists_exception"), e)
      | None => (Response 200 acknowledged, <[index := []]> e)
      end
  | Bulk actions =>
      (Response 200 (VDict {[ "errors" := VBool false ]}),
       foldl index_action e actions)
  | Search index _ =>
      match e !! index with
      | Some docs =>
          (Response 200 (VDict {[ "hits" := VList (VDict <$> docs) ]}), e)
      | None => (Response 404 (error "index_not_found_exception"), e)
      end
  end.

Definition empty_world : world t := World ∅ [].

End ReferenceEngine.

(** ** The batches of the loop *)

(** What lines 77-81 do to the buffer, read off the loop: the lists handed
    to [bulk], and the buffer at the end. *)
Fixpoint batches (batch_size : Z) (buf rs : list record)
  : list (list record) * list record :=
  match rs with
  | [] => ([], buf)
  | r :: rs' =>
      let buf' := buf ++ [r] in
      if Z.of_nat (length buf') >=? batch_size
      then let (fl, rest) := batches batch_size [] rs' in (buf' :: fl, rest)
      else batches batch_size buf' rs'
  end.

(** An engine that accepts every bulk request. *)
Definition accepts_bulk {E} (perform : request -> E -> response * E) : Prop :=
  forall actions e,
    200 <= status (perform (Bulk actions) e).1 < 300.

(** ** The statements of the specification that the code does not meet *)

Module Stated.

(** "After loading both the [paragraphs] list and the
    [paragraphs_embeddings] list have length <= the configured
    [n_paragraphs] limit, and the two lists have equal length", of a
    yielded record that has the key [paragraphs]. *)
Definition truncated_and_equal (n_paragraphs : Z) (entry : record) : Prop :=
  contains entry "paragraphs" = true ->
  exists ps pes,
    entry !! "paragraphs" = Some (VList ps)
    /\ entry !! "paragraphs_embeddings" = Some (VList pes)
    /\ Z.of_nat (length ps) <= n_paragraphs
    /\ Z.of_nat (length pes) <= n_paragraphs
    /\ length ps = length pes.

(** "Every original field of the record and its value are unchanged by
    the tagging step." *)
Definition tagging_keeps_every_field (index_name : string) (entry : record)
  : Prop :=
  forall key v,
    entry !! key = Some v ->
    ElasticSearchProvider.entry_elastic index_name entry !! key = Some v.

End Stated.

(** ** Sample inputs *)

Module Samples.

Definition paper (i : nat) : record :=
  {[ "cord_id" := VInt (Z.of_nat i); "title" := VStr "a title" ]}.

(** A source of 300 records. *)
Definition papers_300 : generator :=
  Generator (Yield <$> (paper <$> seq 1 300)) (Ok tt).

Definition mapping : record :=
  {[ "mappings" := VDict {[ "dynamic" := VStr "true" ]} ]}.

Definition provider_300 : ElasticSearchProvider.t :=
  ElasticSearchProvider.Make papers_300 mapping []
    ElasticSearchProvider.default_index_name.

(** A source of 3 records. *)
Definition provider_3 : ElasticSearchProvider.t :=
  ElasticSearchProvider.Make
    (Generator [Yield (paper 1); Yield (paper 2); Yield (paper 3)] (Ok tt))
    mapping [] ElasticSearchProvider.default_index_name.

Definition embedding (i : Z) : value := VList [VFloat i (-3); VFloat 1 0].

(** Three paragraphs and their three embeddings. *)
Definition full_paper : record :=
  {[ "title" := VStr "full";
     "paragraphs" := VList [VStr "p1"; VStr "p2"; VStr "p3"];
     "paragraphs_embeddings" :=
       VList [embedding 1; embedding 2; embedding 3] ]}.

(** Three paragraphs and two embeddings. *)
Definition uneven_paper : record :=
  {[ "title" := VStr "uneven";
     "paragraphs" := VList [VStr "p1"; VStr "p2"; VStr "p3"];
     "paragraphs_embeddings" := VList [embedding 1; embedding 2] ]}.

(** Paragraphs without embeddings. *)
Definition no_embeddings_paper : record :=
  {[ "title" := VStr "no embeddings";
     "paragraphs" := VList [VStr "p1"; VStr "p2"] ]}.

(** Paragraphs that are not a sequence. *)
Definition null_paragraphs_paper : record :=
  {[ "title" := VStr "null"; "paragraphs" := VNone ]}.

(** A record that already has a field [_index]. *)
Definition routed_paper : record :=
  {[ "title" := VStr "routed"; "_index" := VStr "other" ]}.

Definition files : gmap string file :=
  {[ "data/a.pkl" := Pickled [full_paper; paper 7];
     "data/broken.pkl" := LoadFails UnpicklingError;
     "data/partial.pkl" :=
       Pickled [paper 8; no_embeddings_paper; full_paper];
     "data/uneven.pkl" := Pickled [uneven_paper] ]}.

Definition disk : filesystem :=
  Filesystem
    (fun root =>
       if String.eqb root "data"
       then ["data/a.pkl"; "data/broken.pkl"; "data/partial.pkl";
             "data/uneven.pkl"]
       else [])
    (fun file_path => default (OpenFails (OSError 2)) (files !! file_path)).

End Samples.

(** ** Further projections and sample inputs *)

(** The warnings logged, in order. *)
Definition warnings (ls : list local_event) : list log_message :=
  omap (fun l => match l with LogWarning m => Some m | _ => None end) ls.

(** An answer is a success when its status is in 200..299. *)
Definition success (resp : response) : Prop := 200 <= status resp < 300.

(** An engine that accepts every request. *)
Definition accepts_all {E} (perform : request -> E -> response * E) : Prop :=
  forall r e, success (perform r e).1.

Module Engines.

(** The reference engine under load: it refuses the bulk requests with
    429 and answers the other requests as usual. *)
Definition refusing_bulk (r : request) (e : ReferenceEngine.t)
  : response * ReferenceEngine.t :=
  match r with
  | Bulk _ =>
      (Response 429 (ReferenceEngine.error "es_rejected_execution_exception"),
       e)
  | _ => ReferenceEngine.perform r e
  end.

(** The reference engine without the right to create an index: it refuses
    the creations with 403 and answers the other requests as usual. *)
Definition refusing_create (r : request) (e : ReferenceEngine.t)
  : response * ReferenceEngine.t :=
  match r with
  | IndicesCreate _ _ =>
      (Response 403 (ReferenceEngine.error "security_exception"), e)
  | _ => ReferenceEngine.perform r e
  end.

(** An engine that is not available: every request is answered with 503. *)
Definition unavailable (r : request) (e : unit) : response * unit :=
  (Response 503 (VStr "unavailable"), e).

(** An engine that accepts everything and keeps nothing. *)
Definition accepting (r : request) (e : unit) : response * unit :=
  (Response 200 ReferenceEngine.acknowledged, e).

(** A directory whose two files cannot be read. *)
Definition unreadable_disk : filesystem :=
  Filesystem
    (fun root => ["x/a.pkl"; "x/b.pkl"])
    (fun file_path =>
       if String.eqb file_path "x/a.pkl" then OpenFails (OSError 13)
       else LoadFails UnpicklingError).

End Engines.

(** * Properties *)

(** The test of line 78, as an inequality. *)
Lemma should_bulk_true n batch_size :
  (Z.of_nat n >=? batch_size) = true <-> batch_size <= Z.of_nat n.
Proof. rewrite Z.geb_leb. apply Z.leb_le. Qed.

Lemma should_bulk_false n batch_size :
  (Z.of_nat n >=? batch_size) = false <-> Z.of_nat n < batch_size.
Proof. rewrite Z.geb_leb. apply Z.leb_gt. Qed.

Ltac should_bulk_cases :=
  repeat match goal with
    | H : (Z.of_nat _ >=? _) = true |- _ => apply should_bulk_true in H
    | H : (Z.of_nat _ >=? _) = false |- _ => apply should_bulk_false in H
    end.

Section BatchesFacts.
Variable batch_size : Z.
Hypothesis batch_size_pos : 1 <= batch_size.

Lemma batches_concat buf rs :
  concat (batches batch_size buf rs).1 ++ (batches batch_size buf rs).2
  = buf ++ rs.
Proof.
  revert buf; induction rs as [|r rs IH]; intros buf; simpl.
  - by rewrite app_nil_r.
  - destruct (Z.of_nat (length (buf ++ [r])) >=? batch_size).
    + specialize (IH []). destruct (batches batch_size [] rs) as [fl rest].
      simpl in *. rewrite <- (assoc_L (++)), IH. by rewrite <- (assoc_L (++)).
    + rewrite IH. by rewrite <- (assoc_L (++)).
Qed.

Lemma batches_full buf rs :
  Z.of_nat (length buf) < batch_size ->
  Forall (fun b => Z.of_nat (length b) = batch_size)
    (batches batch_size buf rs).1
  /\ Z.of_nat (length (batches batch_size buf rs).2) < batch_size.
Proof.
  revert buf; induction rs as [|r rs IH]; intros buf Hbuf; simpl.
  - split; [constructor | done].
  - destruct (Z.of_nat (length (buf ++ [r])) >=? batch_size) eqn:Hge.
    + destruct (IH []) as [IH1 IH2]; [simpl; lia|].
      destruct (batches batch_size [] rs) as [fl rest]. simpl in *.
      split; [|done]. constructor; [|done].
      should_bulk_cases. rewrite length_app in *. simpl in *. lia.
    + apply IH. should_bulk_cases. lia.
Qed.

Lemma concat_length_full (fl : list (list record)) :
  Forall (fun b => Z.of_nat (length b) = batch_size) fl ->
  Z.of_nat (length (concat fl)) = batch_size * Z.of_nat (length fl).
Proof.
  induction 1 as [|b fl Hb _ IH]; simpl; [lia|].
  rewrite length_app. lia.
Qed.

Lemma batches_count buf rs :
  Z.of_nat (length buf) < batch_size ->
  let n := Z.of_nat (length buf + length rs) in
  Z.of_nat (length (batches batch_size buf rs).1) = n / batch_size
  /\ Z.of_nat (length (batches batch_size buf rs).2) = n mod batch_size.
Proof.
  intros Hbuf n.
  destruct (batches_full buf rs Hbuf) as [Hfull Hrest].
  pose proof (batches_concat buf rs) as Hcat.
  apply (f_equal (fun l => Z.of_nat (length l))) in Hcat.
  rewrite !length_app, Nat2Z.inj_add, (concat_length_full _ Hfull) in Hcat.
  assert (Hn : n = batch_size * Z.of_nat (length (batches batch_size buf rs).1)
                   + Z.of_nat (length (batches batch_size buf rs).2))
    by (unfold n; lia).
  split.
  - eapply Z.div_unique_pos; [|exact Hn]. lia.
  - eapply Z.mod_unique_pos; [|exact Hn]. lia.
Qed.
End BatchesFacts.

(** ** The trace projections *)

Lemma requests_app t1 t2 : requests (t1 ++ t2) = requests t1 ++ requests t2.
Proof. apply omap_app. Qed.

Lemma locals_app t1 t2 : locals (t1 ++ t2) = locals t1 ++ locals t2.
Proof. apply omap_app. Qed.

Lemma yielded_app i1 i2 : yielded (i1 ++ i2) = yielded i1 ++ yielded i2.
Proof. apply omap_app. Qed.

Lemma emitted_app i1 i2 : emitted (i1 ++ i2) = emitted i1 ++ emitted i2.
Proof. apply omap_app. Qed.

Lemma opened_app l1 l2 : opened (l1 ++ l2) = opened l1 ++ opened l2.
Proof. apply omap_app. Qed.

(** ** The client *)

Section ClientFacts.
Context {E : Type} (perform : request -> E -> response * E).

Lemma perform_request_trace ignore r (w : world E) :
  trace (Elasticsearch.perform_request perform ignore r w).2
  = trace w ++ [EvRequest r].
Proof.
  unfold Elasticsearch.perform_request.
  destruct (perform r (engine w)) as [resp e'].
  by repeat case_match.
Qed.

Lemma perform_request_engine ignore r (w : world E) :
  engine (Elasticsearch.perform_request perform ignore r w).2
  = (perform r (engine w)).2.
Proof.
  unfold Elasticsearch.perform_request.
  destruct (perform r (engine w)) as [resp e'].
  by repeat case_match.
Qed.

Lemma perform_request_success ignore r (w : world E) :
  200 <= status (perform r (engine w)).1 < 300 ->
  (Elasticsearch.perform_request perform ignore r w).1
  = Ok (body (perform r (engine w)).1).
Proof.
  intros [Hlo Hhi]. unfold Elasticsearch.perform_request.
  destruct (perform r (engine w)) as [resp e']. simpl in *.
  apply Z.leb_le in Hlo. apply Z.ltb_lt in Hhi. by rewrite Hlo, Hhi.
Qed.

Lemma perform_request_ignored ignore r (w : world E) :
  status (perform r (engine w)).1 ∈ ignore ->
  (Elasticsearch.perform_request perform ignore r w).1
  = Ok (body (perform r (engine w)).1).
Proof.
  intros Hin. unfold Elasticsearch.perform_request.
  destruct (perform r (engine w)) as [resp e']. simpl in *.
  rewrite (bool_decide_eq_true_2 _ Hin). by case_match.
Qed.

Lemma perform_request_raises r (w : world E) :
  ~ 200 <= status (perform r (engine w)).1 < 300 ->
  (Elasticsearch.perform_request perform [] r w).1
  = Raise (TransportError (status (perform r (engine w)).1)).
Proof.
  intros Hbad. unfold Elasticsearch.perform_request.
  destruct (perform r (engine w)) as [resp e']. simpl in *.
  destruct (200 <=? status resp) eqn:Hlo, (status resp <? 300) eqn:Hhi;
    simpl; try done.
  apply Z.leb_le in Hlo. apply Z.ltb_lt in Hhi. lia.
Qed.
End ClientFacts.

(** ** The loop of create_and_bulk_documents *)

Section LoopFacts.
Context {E : Type} (perform : request -> E -> response * E).
Import ElasticSearchProvider.

Lemma bulk_step_run batch_size entry self (w : world E) :
  let d := doc self ++ [entry_elastic (index_name self) entry] in
  bulk_step perform batch_size entry (self, w) =
    if Z.of_nat (length d) >=? batch_size then
      match Elasticsearch.bulk perform d w with
      | (Ok _, w') => (Ok tt, (with_doc self [], w'))
      | (Raise e, w') => (Raise e, (with_doc self d, w'))
      end
    else (Ok tt, (with_doc self d, w)).
Proof.
  unfold bulk_step, append_entry, flush, bind, this, gets, set_doc, modify,
    lift; simpl.
  destruct (Z.of_nat _ >=? batch_size); [|done]. simpl.
  by destruct (Elasticsearch.bulk perform _ w) as [[v|e] w'].
Qed.

Lemma for_entries_run batch_size its fin :
  forall self (w : world E) r self' w',
    for_entries its fin (bulk_step perform batch_size) (self, w)
    = (r, (self', w')) ->
    let tagged := entry_elastic (index_name self) <$> yielded its in
    let expected := batches batch_size (doc self) tagged in
    index_name self' = index_name self
    /\ index_file self' = index_file self
    /\ exists rest fl,
        trace w' = trace w ++ rest
        /\ requests rest = Bulk <$> fl
        /\ fl `prefix_of` expected.1
        /\ locals rest `prefix_of` emitted its
        /\ (r = Ok tt ->
            fin = Ok tt /\ fl = expected.1 /\ doc self' = expected.2
            /\ locals rest = emitted its
            /\ entries self' = Generator [] (Ok tt)).
Proof.
  induction its as [|[l|entry] its IH]; intros self w r self' w' Hrun.
  - simpl in Hrun. unfold bind, set_entries, modify in Hrun. simpl in Hrun.
    destruct fin as [[]|e]; injection Hrun as <- <- <-; simpl;
      (split; [done|]; split; [done|]); exists [], [];
      rewrite app_nil_r; split_and!; done.
  - simpl in Hrun. unfold bind, lift, emit, modify in Hrun. simpl in Hrun.
    apply IH in Hrun as (Hname & Hfile & rest & fl & Ht & Hr & Hp & Hl & Hok).
    simpl in *. split; [done|]. split; [done|].
    exists (EvLocal l :: rest), fl. simpl.
    rewrite Ht, <- (assoc_L (++)). split_and!; try done.
    + by apply prefix_cons.
    + intros Hres. destruct (Hok Hres) as (? & ? & ? & ? & ?).
      split_and!; try done. by f_equal.
  - simpl in Hrun. unfold bind at 1, set_entries, modify in Hrun.
    simpl in Hrun. unfold bind at 1 in Hrun. rewrite bulk_step_run in Hrun.
    simpl in Hrun.
    pose proof (perform_request_trace perform []
      (Bulk (doc self ++ [entry_elastic (index_name self) entry])) w) as Htr.
    fold (Elasticsearch.bulk perform
      (doc self ++ [entry_elastic (index_name self) entry])) in Htr.
    destruct (Z.of_nat (length (doc self ++ _)) >=? batch_size) eqn:Hge.
    + destruct (Elasticsearch.bulk perform _ w) as [[v|e] w1] eqn:Hbulk.
      * apply IH in Hrun
          as (Hname & Hfile & rest & fl & Ht & Hr & Hp & Hl & Hok).
        simpl in *. rewrite Hge.
        destruct (batches batch_size [] _) as [fl0 rest0] eqn:Hb.
        simpl in *. split; [done|]. split; [done|].
        eexists (EvRequest (Bulk _) :: rest), (_ :: fl). simpl.
        rewrite Ht, Htr, <- (assoc_L (++)). simpl.
        rewrite Hr. split_and!; try done.
        -- by apply prefix_cons.
        -- intros Hres. destruct (Hok Hres) as (? & ? & ? & ? & ?).
           split_and!; try done. by f_equal.
      * injection Hrun as <- <- <-. simpl. rewrite Hge.
        destruct (batches batch_size [] _) as [fl0 rest0] eqn:Hb.
        simpl in *. split; [done|]. split; [done|].
        eexists [EvRequest (Bulk _)], [_]. simpl.
        rewrite Htr. split_and!; try done.
        -- apply prefix_cons, prefix_nil.
        -- apply prefix_nil.
    + clear Htr. apply IH in Hrun
        as (Hname & Hfile & rest & fl & Ht & Hr & Hp & Hl & Hok).
      simpl in *. rewrite Hge. split; [done|]. split; [done|].
      by exists rest, fl.
Qed.
Lemma for_entries_ok batch_size its :
  accepts_bulk perform ->
  forall self (w : world E),
    (for_entries its (Ok tt) (bulk_step perform batch_size) (self, w)).1
    = Ok tt.
Proof.
  intros Hbulk. induction its as [|[l|entry] its IH]; intros self w.
  - done.
  - simpl. unfold bind, lift, emit, modify. simpl. apply IH.
  - simpl. unfold bind at 1, set_entries, modify. simpl.
    unfold bind at 1. rewrite bulk_step_run. simpl.
    destruct (Z.of_nat (length (doc self ++ _)) >=? batch_size); [|apply IH].
    pose proof (perform_request_success perform []
      (Bulk (doc self ++ [entry_elastic (index_name self) entry])) w
      (Hbulk _ _)) as Hok.
    fold (Elasticsearch.bulk perform
      (doc self ++ [entry_elastic (index_name self) entry])) in Hok.
    destruct (Elasticsearch.bulk perform _ w) as [[v|e] w1]; [|done].
    apply IH.
Qed.
End LoopFacts.

(** ** Counting the flushes *)

Lemma ceil_minus_partial n batch_size :
  1 <= batch_size -> 0 <= n ->
  (n + batch_size - 1) / batch_size
  - (if n mod batch_size =? 0 then 0 else 1)
  = n / batch_size.
Proof.
  intros Hb Hn.
  pose proof (Z.div_mod n batch_size ltac:(lia)) as Hdm.
  pose proof (Z.mod_pos_bound n batch_size ltac:(lia)) as Hm.
  destruct (n mod batch_size =? 0) eqn:Hz.
  - apply Z.eqb_eq in Hz. rewrite Z.sub_0_r. symmetry.
    apply (Z.div_unique_pos _ _ _ (batch_size - 1)); lia.
  - apply Z.eqb_neq in Hz.
    assert ((n + batch_size - 1) / batch_size = n / batch_size + 1) as ->;
      [|lia].
    symmetry.
    apply (Z.div_unique_pos _ _ _ (n mod batch_size - 1)); lia.
Qed.

(** C1.  With a batch size of at least 1, an empty buffer and an engine that
    accepts the bulk requests, [create_and_bulk_documents] returns after
    sending, as its only requests, one bulk request per full batch: their
    number is [ceil(n / batch_size)] minus one when a partial batch trails,
    that is [n / batch_size] rounded down; every one carries exactly
    [batch_size] tagged records; the flushed records followed by the buffer
    are the tagged input in its order; and the [n mod batch_size] trailing
    records stay in the buffer.  For 300 records and a batch size of 128
    there are 2 flushes, of the records 1-128 and 129-256, and 44 records
    stay in the buffer. *)
Theorem create_and_bulk_documents_flushes_full_batches :
  forall {E : Type} (perform : request -> E -> response * E)
    (batch_size : Z) (self : ElasticSearchProvider.t) (w : world E),
    accepts_bulk perform ->
    1 <= batch_size ->
    ElasticSearchProvider.doc self = [] ->
    finish (ElasticSearchProvider.entries self) = Ok tt ->
    let rs :=
      ElasticSearchProvider.entry_elastic
        (ElasticSearchProvider.index_name self)
      <$> yielded (items (ElasticSearchProvider.entries self)) in
    let n := Z.of_nat (length rs) in
    exists flushes self' w' rest,
      ElasticSearchProvider.create_and_bulk_documents perform batch_size
        (self, w) = (Ok tt, (self', w'))
      /\ trace w' = trace w ++ rest
      /\ requests rest = Bulk <$> flushes
      /\ Z.of_nat (length flushes)
         = (n + batch_size - 1) / batch_size
           - (if n mod batch_size =? 0 then 0 else 1)
      /\ Z.of_nat (length flushes) = n / batch_size
      /\ Forall (fun b => Z.of_nat (length b) = batch_size) flushes
      /\ concat flushes ++ ElasticSearchProvider.doc self' = rs
      /\ Z.of_nat (length (ElasticSearchProvider.doc self'))
         = n mod batch_size
      /\ (n = 300 -> batch_size = 128 ->
          flushes = [take 128 rs; take 128 (skipn 128 rs)]
          /\ ElasticSearchProvider.doc self' = skipn 256 rs
          /\ length (ElasticSearchProvider.doc self') = 44%nat).
Proof.
  intros E perform batch_size self w Hbulk Hpos Hdoc Hfin rs n.
  unfold ElasticSearchProvider.create_and_bulk_documents, bind,
    ElasticSearchProvider.this, gets. simpl. rewrite Hfin.
  pose proof (for_entries_ok perform batch_size
    (items (ElasticSearchProvider.entries self)) Hbulk self w) as Hok.
  destruct (ElasticSearchProvider.for_entries _ _ _ (self, w))
    as [r [self' w']] eqn:Hrun.
  simpl in Hok. subst r.
  apply for_entries_run in Hrun
    as (_ & _ & rest & fl & Ht & Hr & _ & _ & Hres).
  destruct (Hres eq_refl) as (_ & Hfl & Hd & _ & _). clear Hres.
  rewrite Hdoc in Hfl, Hd. fold rs in Hfl, Hd.
  pose proof (batches_concat batch_size [] rs) as Hcat.
  destruct (batches_full batch_size Hpos [] rs ltac:(simpl; lia))
    as [Hfull Hrest].
  destruct (batches_count batch_size Hpos [] rs ltac:(simpl; lia))
    as [Hcount Hmod].
  rewrite <- Hfl, <- Hd in *. simpl in Hcat, Hcount, Hmod. fold n in Hcount, Hmod.
  exists fl, self', w', rest. split_and!; try done.
  - rewrite ceil_minus_partial; [done|done|lia].
  - intros Hn ->. rewrite Hn in Hcount, Hmod.
    change (300 / 128) with 2 in Hcount. change (300 mod 128) with 44 in Hmod.
    destruct fl as [|b1 [|b2 [|b3 fl]]]; simpl in Hcount; try lia.
    apply Forall_cons in Hfull as [Hb1 Hfull].
    apply Forall_cons in Hfull as [Hb2 _].
    simpl in Hcat. rewrite app_nil_r, <- (assoc_L (++)) in Hcat.
    rewrite <- Hcat.
    rewrite (take_app_length' b1) by lia.
    rewrite (drop_app_length' b1) by lia.
    rewrite (take_app_length' b2) by lia.
    split_and!; [done| |lia].
    rewrite (assoc_L (++)), drop_app_length'; [done|].
    rewrite length_app. lia.
Qed.

Lemma reference_engine_accepts_bulk : accepts_bulk ReferenceEngine.perform.
Proof. intros actions e. simpl. lia. Qed.

Lemma create_and_bulk_documents_flushes_full_batches_witness :
  exists flushes self' w' rest,
    ElasticSearchProvider.create_and_bulk_documents ReferenceEngine.perform
      128 (Samples.provider_300, ReferenceEngine.empty_world)
    = (Ok tt, (self', w'))
    /\ trace w' = rest
    /\ requests rest = Bulk <$> flushes
    /\ length flushes = 2%nat
    /\ length (ElasticSearchProvider.doc self') = 44%nat.
Proof.
  destruct (create_and_bulk_documents_flushes_full_batches
              ReferenceEngine.perform 128 Samples.provider_300
              ReferenceEngine.empty_world)
    as (flushes & self' & w' & rest & Hrun & Ht & Hr & _ & Hlen & _ & _ & _
        & H300).
  - exact reference_engine_accepts_bulk.
  - lia.
  - reflexivity.
  - reflexivity.
  - exists flushes, self', w', rest.
    destruct H300 as (-> & _ & Hbuf); [reflexivity | reflexivity |].
    split_and!; done.
Defined.


(** ** The buffer, point by point *)

Section BufferBound.
Import BulkLoop.
Variables (index_name : string) (batch_size : Z).
Hypothesis batch_size_pos : 1 <= batch_size.

Lemma step_preserves_invariant c c' :
  step index_name batch_size c c' ->
  buffer_invariant batch_size c -> buffer_invariant batch_size c'.
Proof.
  unfold buffer_invariant.
  destruct 1; simpl; intros Hinv; should_bulk_cases; try done.
  - rewrite length_app. simpl. lia.
  - subst. simpl. lia.
Qed.

Lemma reachable_invariant entries d0 c :
  Z.of_nat (length d0) < batch_size ->
  reachable index_name batch_size entries d0 c ->
  buffer_invariant batch_size c.
Proof.
  intros Hd0. unfold reachable. revert c.
  apply rtc_ind_r; [done|].
  eauto using step_preserves_invariant.
Qed.

(** The loop of the program follows the transitions: it ends at the head
    of the loop with no entry left and the buffer that [batches] gives. *)
Lemma steps_to_batches entries d :
  rtc (step index_name batch_size)
    (Config LoopHead entries d)
    (Config LoopHead []
       (batches batch_size d
          (ElasticSearchProvider.entry_elastic index_name <$> entries)).2).
Proof.
  revert d. induction entries as [|entry entries IH]; intros d; simpl.
  - reflexivity.
  - eapply rtc_l; [apply step_append|].
    destruct (Z.of_nat (length (d ++ _)) >=? batch_size) eqn:Hge.
    + eapply rtc_l; [by apply step_bulk|].
      eapply rtc_l; [apply step_clear|].
      eapply rtc_l; [apply step_next|].
      specialize (IH []).
      by destruct (batches batch_size [] _) as [fl rest].
    + eapply rtc_l; [by apply step_no_bulk|]. apply IH.
Qed.

(** Every list handed to [bulk] is the buffer at the point [Bulked]. *)
Lemma flushes_are_bulked entries d b :
  b ∈ (batches batch_size d
         (ElasticSearchProvider.entry_elastic index_name <$> entries)).1 ->
  exists rest,
    reachable index_name batch_size entries d (Config Bulked rest b).
Proof.
  unfold reachable.
  revert d. induction entries as [|entry entries IH]; intros d; simpl.
  - by intros ?%elem_of_nil.
  - destruct (Z.of_nat (length (d ++ _)) >=? batch_size) eqn:Hge.
    + specialize (IH []).
      destruct (batches batch_size [] _) as [fl rest]. simpl in *.
      intros [->|Hin]%elem_of_cons.
      * exists entries. eapply rtc_l; [apply step_append|].
        eapply rtc_l; [by apply step_bulk|]. reflexivity.
      * destruct (IH Hin) as [rest' Hrest']. exists rest'.
        eapply rtc_l; [apply step_append|].
        eapply rtc_l; [by apply step_bulk|].
        eapply rtc_l; [apply step_clear|].
        eapply rtc_l; [apply step_next|]. done.
    + intros Hin. destruct (IH _ Hin) as [rest' Hrest']. exists rest'.
      eapply rtc_l; [apply step_append|].
      eapply rtc_l; [by apply step_no_bulk|]. done.
Qed.
End BufferBound.

Section RunFollowsSteps.
Context {E : Type} (perform : request -> E -> response * E).

(** A run of the method that returns has gone through the transitions of
    [BulkLoop], and every bulk request it sent carried the buffer of a
    configuration at [Bulked]. *)
Lemma create_and_bulk_documents_follows_steps batch_size self (w : world E)
  self' w' :
  ElasticSearchProvider.create_and_bulk_documents perform batch_size
    (self, w) = (Ok tt, (self', w')) ->
  let name := ElasticSearchProvider.index_name self in
  let ys := yielded (items (ElasticSearchProvider.entries self)) in
  let d0 := ElasticSearchProvider.doc self in
  BulkLoop.reachable name batch_size ys d0
    (BulkLoop.Config BulkLoop.LoopHead [] (ElasticSearchProvider.doc self'))
  /\ forall b,
      Bulk b ∈ skipn (length (requests (trace w))) (requests (trace w')) ->
      exists rest,
        BulkLoop.reachable name batch_size ys d0
          (BulkLoop.Config BulkLoop.Bulked rest b).
Proof.
  intros Hrun name ys d0. subst name ys d0.
  unfold ElasticSearchProvider.create_and_bulk_documents, bind,
    ElasticSearchProvider.this, gets in Hrun. simpl in Hrun.
  apply for_entries_run in Hrun
    as (_ & _ & rest & fl & Ht & Hr & _ & _ & Hres).
  destruct (Hres eq_refl) as (_ & Hfl & Hd & _ & _). split.
  - rewrite Hd. apply steps_to_batches.
  - intros b. rewrite Ht, requests_app, drop_app_length, Hr, Hfl.
    intros (b' & [= <-] & Hin)%list_elem_of_fmap.
    by apply flushes_are_bulked.
Qed.
End RunFollowsSteps.

(** The bound on the transitions of [BulkLoop]: from an empty buffer and
    with a batch size of at least 1, every configuration that the
    transitions reach holds at most [batch_size] records, fewer at the head
    of the loop and none after the reset. *)
Theorem buffer_holds_at_most_batch_size :
  forall (index_name : string) (batch_size : Z) (entries : list record)
    (c : BulkLoop.config),
    1 <= batch_size ->
    BulkLoop.reachable index_name batch_size entries [] c ->
    Z.of_nat (length (BulkLoop.buffer c)) <= batch_size
    /\ (BulkLoop.at_point c = BulkLoop.LoopHead ->
        Z.of_nat (length (BulkLoop.buffer c)) < batch_size)
    /\ (BulkLoop.at_point c = BulkLoop.Cleared -> BulkLoop.buffer c = []).
Proof.
  intros index_name batch_size entries c Hpos Hreach.
  pose proof (reachable_invariant index_name batch_size Hpos entries [] c
                ltac:(simpl; lia) Hreach) as Hinv.
  unfold BulkLoop.buffer_invariant in Hinv.
  destruct (BulkLoop.at_point c); split_and!; try done; try lia.
  all: rewrite Hinv; simpl; lia.
Qed.

(** ** The buffer during a run of the method *)

Section BufferDuringRun.
Context {E : Type} (perform : request -> E -> response * E).
Import ElasticSearchProvider.

(** The body of the loop does not look at the generator. *)
Lemma bulk_step_entries batch_size entry self g (w : world E) :
  bulk_step perform batch_size entry (with_entries self g, w)
  = let out := bulk_step perform batch_size entry (self, w) in
    (out.1, (with_entries out.2.1 g, out.2.2)).
Proof.
  rewrite !bulk_step_run. simpl.
  destruct (Z.of_nat (length (doc self ++ _)) >=? batch_size); [|done].
  by destruct (Elasticsearch.bulk perform _ w) as [[v|e] w1].
Qed.

(** A run on a source cut before one of its entries: the loop on what comes
    before the entry, then the entry, then the rest. *)
Lemma for_entries_split batch_size before entry after fin :
  forall self g (w : world E),
    for_entries (before ++ Yield entry :: after) fin
      (bulk_step perform batch_size) (with_entries self g, w)
    = match
        for_entries before (Ok tt) (bulk_step perform batch_size) (self, w)
      with
      | (Ok _, (self0, w0)) =>
          match
            bulk_step perform batch_size entry
              (with_entries self0 (Generator after fin), w0)
          with
          | (Ok _, s) => for_entries after fin (bulk_step perform batch_size) s
          | (Raise e, s) => (Raise e, s)
          end
      | (Raise e, (self0, w0)) =>
          (Raise e,
           (with_entries self0
              (Generator (items (entries self0) ++ Yield entry :: after) fin),
            w0))
      end.
Proof.
  induction before as [|[l|e0] before IH]; intros self g w.
  - simpl. unfold bind, set_entries, modify. simpl.
    by destruct (bulk_step perform batch_size entry _) as [[[]|e] s].
  - simpl. unfold bind, lift, emit, modify. simpl.
    apply (IH self g).
  - simpl. unfold bind at 1 3, set_entries, modify. simpl.
    unfold bind at 1 2. rewrite !bulk_step_entries. simpl.
    destruct (bulk_step perform batch_size e0 (self, w))
      as [[[]|e] [self1 w1]]; simpl.
    + apply (IH (with_entries self1 (Generator before (Ok tt)))).
    + done.
Qed.

(** The buffer stays under the batch size from one entry to the next. *)
Lemma bulk_step_buffer_bound batch_size entry self (w : world E) r self' w' :
  1 <= batch_size ->
  Z.of_nat (length (doc self)) < batch_size ->
  bulk_step perform batch_size entry (self, w) = (r, (self', w')) ->
  Z.of_nat (length (doc self')) <= batch_size
  /\ (r = Ok tt -> Z.of_nat (length (doc self')) < batch_size).
Proof.
  intros Hb Hd. rewrite bulk_step_run. simpl.
  destruct (Z.of_nat (length (doc self ++ _)) >=? batch_size) eqn:Hge.
  - destruct (Elasticsearch.bulk perform _ w) as [[v|e] w1];
      intros [= <- <- <-]; simpl.
    + split; [lia | intros _; lia].
    + rewrite length_app. simpl. split; [lia | done].
  - intros [= <- <- <-]. should_bulk_cases. simpl.
    split; [lia | intros _; lia].
Qed.

Lemma for_entries_buffer_bound batch_size its fin :
  1 <= batch_size ->
  forall self (w : world E) r self' w',
    Z.of_nat (length (doc self)) < batch_size ->
    for_entries its fin (bulk_step perform batch_size) (self, w)
    = (r, (self', w')) ->
    Z.of_nat (length (doc self')) <= batch_size
    /\ (r = Ok tt -> Z.of_nat (length (doc self')) < batch_size).
Proof.
  intros Hb. induction its as [|[l|entry] its IH];
    intros self w r self' w' Hd Hrun.
  - simpl in Hrun. unfold bind, set_entries, modify in Hrun. simpl in Hrun.
    destruct fin as [[]|e]; injection Hrun as <- <- <-; simpl;
      split; try done; lia.
  - simpl in Hrun. unfold bind, lift, emit, modify in Hrun. simpl in Hrun.
    by apply IH in Hrun.
  - simpl in Hrun. unfold bind at 1, set_entries, modify in Hrun.
    simpl in Hrun. unfold bind at 1 in Hrun.
    destruct (bulk_step perform batch_size entry _)
      as [[[]|e] [self1 w1]] eqn:Hstep.
    + apply bulk_step_buffer_bound in Hstep as [_ Hstep]; [|done|done].
      apply IH in Hrun; [done|]. by apply Hstep.
    + injection Hrun as <- <- <-.
      by apply bulk_step_buffer_bound in Hstep.
Qed.

(** What [flush] does to the buffer: empty when the bulk request went
    through, untouched when it raised. *)
Lemma flush_buffer s r (s' : t * world E) :
  flush perform s = (r, s') ->
  (r = Ok tt -> doc s'.1 = []) /\ (r <> Ok tt -> doc s'.1 = doc s.1).
Proof.
  unfold flush, bind, this, gets, lift, set_doc, modify. simpl.
  destruct (Elasticsearch.bulk perform _ s.2) as [[v|e] w1];
    intros [= <- <-]; simpl; split; done.
Qed.
End BufferDuringRun.

(** C9.  Take a run of [create_and_bulk_documents] with a batch size of at
    least 1 that starts with an empty buffer, and cut its source before any
    of its entries; suppose the loop has come that far.  Then the run is
    that loop, followed by the body of the loop on this entry, followed by
    the loop on the rest; and the buffer holds fewer than [batch_size]
    records when the entry is read, at most [batch_size] once the entry is
    appended (line 77), nothing right after a flush that went through
    (lines 80-81) and the same records when the bulk request raised, at most
    [batch_size] after the body, fewer when the body returned, and at most
    [batch_size] when the run ends, however it ends. *)
Theorem create_and_bulk_documents_keeps_buffer_within_batch_size :
  forall {E : Type} (perform : request -> E -> response * E)
    (batch_size : Z) (self : ElasticSearchProvider.t) (w : world E)
    (before : list gen_item) (entry : record) (after : list gen_item)
    (self0 : ElasticSearchProvider.t) (w0 : world E),
    1 <= batch_size ->
    ElasticSearchProvider.doc self = [] ->
    items (ElasticSearchProvider.entries self)
    = before ++ Yield entry :: after ->
    let body := ElasticSearchProvider.bulk_step perform batch_size in
    let fin := finish (ElasticSearchProvider.entries self) in
    ElasticSearchProvider.for_entries before (Ok tt) body (self, w)
    = (Ok tt, (self0, w0)) ->
    let read :=
      (ElasticSearchProvider.with_entries self0 (Generator after fin), w0) in
    let appended := (ElasticSearchProvider.append_entry entry read).2 in
    let stepped := body entry read in
    let size (s : ElasticSearchProvider.t * world E) :=
      Z.of_nat (length (ElasticSearchProvider.doc s.1)) in
    ElasticSearchProvider.create_and_bulk_documents perform batch_size
      (self, w)
    = match stepped with
      | (Ok _, s) => ElasticSearchProvider.for_entries after fin body s
      | (Raise e, s) => (Raise e, s)
      end
    /\ stepped
       = (if size appended >=? batch_size
          then ElasticSearchProvider.flush perform appended
          else (Ok tt, appended))
    /\ size read < batch_size
    /\ size appended <= batch_size
    /\ (forall r s,
          ElasticSearchProvider.flush perform appended = (r, s) ->
          (r = Ok tt -> ElasticSearchProvider.doc s.1 = [])
          /\ (r <> Ok tt ->
              ElasticSearchProvider.doc s.1
              = ElasticSearchProvider.doc appended.1))
    /\ size stepped.2 <= batch_size
    /\ (stepped.1 = Ok tt -> size stepped.2 < batch_size)
    /\ size
         (ElasticSearchProvider.create_and_bulk_documents perform batch_size
            (self, w)).2
       <= batch_size.
Proof.
  intros E perform batch_size self w before entry after self0 w0 Hb Hdoc
    Hitems body fin Hhead read appended stepped size.
  assert (Hd0 : Z.of_nat (length (ElasticSearchProvider.doc self))
                < batch_size) by (rewrite Hdoc; simpl; lia).
  destruct (for_entries_buffer_bound perform batch_size before (Ok tt) Hb
              self w (Ok tt) self0 w0 Hd0 Hhead) as [_ Hhd].
  specialize (Hhd eq_refl).
  assert (Hstep : size stepped.2 <= batch_size
                  /\ (stepped.1 = Ok tt -> size stepped.2 < batch_size)).
  { unfold size. destruct stepped as [r [s1 w1]] eqn:Hs. simpl.
    by apply (bulk_step_buffer_bound perform batch_size entry
                (ElasticSearchProvider.with_entries self0
                   (Generator after fin)) w0 r s1 w1). }
  split_and!.
  - unfold ElasticSearchProvider.create_and_bulk_documents, bind,
      ElasticSearchProvider.this, gets. simpl. rewrite Hitems. fold fin.
    pose proof (for_entries_split perform batch_size before entry after fin
                  self (ElasticSearchProvider.entries self) w) as Hsplit.
    fold body in Hsplit. rewrite Hhead in Hsplit.
    fold read stepped in Hsplit. rewrite <- Hsplit.
    by destruct self.
  - unfold stepped, body, appended, size, read,
      ElasticSearchProvider.bulk_step, ElasticSearchProvider.append_entry,
      bind, ElasticSearchProvider.this, gets, ElasticSearchProvider.set_doc,
      modify, ret.
    simpl. by destruct (Z.of_nat _ >=? batch_size).
  - exact Hhd.
  - unfold size, appended. simpl. rewrite length_app. simpl. lia.
  - intros r s. apply flush_buffer.
  - apply Hstep.
  - apply Hstep.
  - unfold ElasticSearchProvider.create_and_bulk_documents, bind,
      ElasticSearchProvider.this, gets, size. simpl.
    destruct (ElasticSearchProvider.for_entries (items _) _ _ (self, w))
      as [r [s1 w1]] eqn:Hrun. simpl.
    apply for_entries_buffer_bound in Hrun as [Hend _]; done.
Qed.

Lemma create_and_bulk_documents_keeps_buffer_within_batch_size_witness :
  let tag := ElasticSearchProvider.entry_elastic "covid-19" in
  let body := ElasticSearchProvider.bulk_step ReferenceEngine.perform 2 in
  let self0 :=
    ElasticSearchProvider.Make (Generator [] (Ok tt)) Samples.mapping
      [tag (Samples.paper 1)] "covid-19" in
  let read :=
    (ElasticSearchProvider.with_entries self0
       (Generator [Yield (Samples.paper 3)] (Ok tt)),
     ReferenceEngine.empty_world) in
  let appended :=
    (ElasticSearchProvider.append_entry (Samples.paper 2) read).2 in
  Z.of_nat (length (ElasticSearchProvider.doc appended.1)) <= 2
  /\ (body (Samples.paper 2) read).1 = Ok tt
  /\ Z.of_nat
       (length (ElasticSearchProvider.doc (body (Samples.paper 2) read).2.1))
     < 2.
Proof.
  intros tag body self0 read appended.
  destruct (create_and_bulk_documents_keeps_buffer_within_batch_size
              ReferenceEngine.perform 2 Samples.provider_3
              ReferenceEngine.empty_world
              [Yield (Samples.paper 1)] (Samples.paper 2)
              [Yield (Samples.paper 3)] self0 ReferenceEngine.empty_world)
    as (_ & _ & _ & Happ & _ & _ & Hstep & _).
  - lia.
  - reflexivity.
  - reflexivity.
  - reflexivity.
  - split_and!; [exact Happ | reflexivity | apply Hstep; reflexivity].
Defined.

(** ** A full run *)

Section CallFacts.
Context {E : Type} (perform : request -> E -> response * E).
Import ElasticSearchProvider.

Lemma drop_run self (w : world E) :
  drop perform (self, w) =
    let rw := Elasticsearch.indices_delete perform (index_name self) [404] w
    in (rw.1, (self, rw.2)).
Proof.
  unfold drop, bind, this, gets, lift. simpl.
  by destruct (Elasticsearch.indices_delete _ _ _ w).
Qed.

Lemma create_index_run self (w : world E) :
  create_index perform (self, w) =
    let rw :=
      Elasticsearch.indices_create perform (index_name self)
        (index_file self) w
    in (rw.1, (self, rw.2)).
Proof.
  unfold create_index, bind, this, gets, lift. simpl.
  by destruct (Elasticsearch.indices_create _ _ _ w).
Qed.

(** Whether a run returns or raises, what it has sent is a beginning of:
    the deletion, the creation, the bulk requests of the full batches. *)
Lemma call_requests_in_order batch_size self (w : world E) :
  let name := index_name self in
  let after := (__call__ perform batch_size (self, w)).2.2 in
  exists sent,
    requests (trace after) = requests (trace w) ++ sent
    /\ sent <> []
    /\ sent `prefix_of`
         IndicesDelete name :: IndicesCreate name (index_file self)
         :: (Bulk <$>
              (batches batch_size (doc self)
                 (entry_elastic name <$> yielded (items (entries self)))).1).
Proof.
  intros name after. subst after. unfold __call__.
  unfold bind at 1. rewrite drop_run. simpl. fold name.
  pose proof (perform_request_trace perform [404] (IndicesDelete name) w)
    as Ht1.
  fold (Elasticsearch.indices_delete perform name [404]) in Ht1.
  destruct (Elasticsearch.indices_delete perform name [404] w)
    as [[v1|e1] w1]; simpl in *.
  2: { exists [IndicesDelete name]. rewrite Ht1, requests_app.
       split_and!; [done | done | apply prefix_cons, prefix_nil]. }
  unfold bind at 1, this, gets. simpl.
  unfold bind at 1, lift, logging.info, emit, modify. simpl.
  unfold bind at 1. rewrite create_index_run. simpl. fold name.
  match goal with
  | |- context [Elasticsearch.indices_create perform name ?f ?w2] =>
      pose proof (perform_request_trace perform [] (IndicesCreate name f) w2)
        as Ht2;
      fold (Elasticsearch.indices_create perform name f) in Ht2;
      destruct (Elasticsearch.indices_create perform name f w2)
        as [[v2|e2] w3]
  end; simpl in *.
  2: { exists [IndicesDelete name; IndicesCreate name (index_file self)].
       rewrite Ht2, Ht1, !requests_app. simpl.
       split_and!;
         [by rewrite <- !(assoc_L (++)) | done
         | apply prefix_cons, prefix_cons, prefix_nil]. }
  unfold bind at 1, lift, logging.info, emit, modify. simpl.
  unfold bind at 1, create_and_bulk_documents.
  unfold bind at 1, this, gets. simpl.
  destruct (for_entries _ _ _ _) as [r [self3 w4]] eqn:Hloop.
  apply for_entries_run in Hloop
    as (_ & _ & rest & fl & Ht & Hr & Hp & _ & _). simpl in *.
  exists (IndicesDelete name :: IndicesCreate name (index_file self)
          :: (Bulk <$> fl)).
  assert (Hsent : requests (trace w4)
                  = requests (trace w)
                    ++ IndicesDelete name
                       :: IndicesCreate name (index_file self)
                       :: (Bulk <$> fl)).
  { rewrite Ht, !requests_app, Hr, Ht2, !requests_app, Ht1, requests_app.
    simpl. by rewrite <- !(assoc_L (++)). }
  destruct Hp as [k Hk].
  assert (Hprefix :
    (IndicesDelete name :: IndicesCreate name (index_file self)
     :: (Bulk <$> fl))
    `prefix_of`
    (IndicesDelete name :: IndicesCreate name (index_file self)
     :: (Bulk <$>
          (batches batch_size (doc self)
             (entry_elastic name <$> yielded (items (entries self)))).1))).
  { apply prefix_cons, prefix_cons. unfold name. rewrite Hk, fmap_app.
    by apply prefix_app_r. }
  by destruct r; simpl; split_and!.
Qed.
End CallFacts.



(** ** Dropping the index *)

(** C5.  When the engine answers the deletion of the index with 404, the
    index does not exist, [drop] raises nothing: it returns what the engine
    answered, and it has sent this one request. *)
Theorem drop_missing_index_does_not_raise :
  forall {E : Type} (perform : request -> E -> response * E)
    (self : ElasticSearchProvider.t) (w : world E),
    let name := ElasticSearchProvider.index_name self in
    status (perform (IndicesDelete name) (engine w)).1 = 404 ->
    exists w',
      ElasticSearchProvider.drop perform (self, w)
      = (Ok (body (perform (IndicesDelete name) (engine w)).1), (self, w'))
      /\ trace w' = trace w ++ [EvRequest (IndicesDelete name)]
      /\ engine w' = (perform (IndicesDelete name) (engine w)).2.
Proof.
  intros E perform self w name H404.
  rewrite drop_run. simpl. fold name.
  unfold Elasticsearch.indices_delete.
  pose proof (perform_request_ignored perform [404] (IndicesDelete name) w)
    as Hres.
  rewrite H404 in Hres. specialize (Hres ltac:(by apply list_elem_of_here)).
  pose proof (perform_request_trace perform [404] (IndicesDelete name) w)
    as Ht.
  pose proof (perform_request_engine perform [404] (IndicesDelete name) w)
    as He.
  destruct (Elasticsearch.perform_request perform [404] (IndicesDelete name) w)
    as [r w']. simpl in *. subst r. by exists w'.
Qed.

Lemma drop_missing_index_does_not_raise_witness :
  exists w',
    ElasticSearchProvider.drop ReferenceEngine.perform
      (Samples.provider_300, ReferenceEngine.empty_world)
    = (Ok (ReferenceEngine.error "index_not_found_exception"),
       (Samples.provider_300, w'))
    /\ trace w' = [EvRequest (IndicesDelete "covid-19")]
    /\ engine w' = ∅.
Proof.
  apply (drop_missing_index_does_not_raise ReferenceEngine.perform
           Samples.provider_300 ReferenceEngine.empty_world).
  reflexivity.
Defined.

(** Without the [ignore] of line 54 the same answer would raise. *)
Lemma delete_missing_index_raises_unless_ignored {E : Type}
  (perform : request -> E -> response * E) index (w : world E) :
  status (perform (IndicesDelete index) (engine w)).1 = 404 ->
  (Elasticsearch.indices_delete perform index [] w).1
  = Raise (TransportError 404).
Proof.
  intros H404. unfold Elasticsearch.indices_delete.
  rewrite perform_request_raises; [by rewrite H404 | rewrite H404; lia].
Qed.

(** On the reference engine a drop leaves no index of that name, so a
    second drop meets a missing index and returns as well. *)
Lemma drop_twice_on_reference_engine self (w : world ReferenceEngine.t) :
  exists v1 v2 w1 w2,
    ElasticSearchProvider.drop ReferenceEngine.perform (self, w)
    = (Ok v1, (self, w1))
    /\ ElasticSearchProvider.drop ReferenceEngine.perform (self, w1)
       = (Ok v2, (self, w2))
    /\ engine w2 = engine w1
    /\ engine w1 !! ElasticSearchProvider.index_name self = None.
Proof.
  rewrite drop_run.
  unfold Elasticsearch.indices_delete, Elasticsearch.perform_request. simpl.
  destruct (engine w !! ElasticSearchProvider.index_name self) eqn:Hw; simpl.
  - eexists _, _, _, _. split; [reflexivity|]. rewrite drop_run.
    unfold Elasticsearch.indices_delete, Elasticsearch.perform_request.
    simpl. rewrite lookup_delete_eq. simpl.
    split_and!; [reflexivity | done | done].
  - eexists _, _, _, _. split; [reflexivity|]. rewrite drop_run.
    unfold Elasticsearch.indices_delete, Elasticsearch.perform_request.
    simpl. rewrite Hw. simpl. split_and!; [reflexivity | done | done].
Qed.

(** ** The query *)

Section SearchFacts.
Context {E : Type} (perform : request -> E -> response * E).

Lemma searcher_call_run self vector (w : world E) :
  Elasticsearcher.__call__ perform self vector w
  = Elasticsearch.search perform (Elasticsearcher.index_name self)
      (Elasticsearcher.request_body vector) w.
Proof.
  unfold Elasticsearcher.__call__, bind, ret.
  by destruct (Elasticsearch.search _ _ _ w) as [[v|e] w'].
Qed.
End SearchFacts.

(** C3.  The request body that [__call__] sends is a function of the vector
    alone: whatever the engine, the searcher and the history, a call with
    the same vector sends one search request with the same body; and that
    body has [size] 25 and a [_source] that includes exactly [title] and
    [abstract]. *)
Theorem query_construction_is_deterministic :
  forall (vector : list value),
  exists body : record,
    (forall (E : Type) (perform : request -> E -> response * E)
       (self : Elasticsearcher.t) (w : world E),
        trace (Elasticsearcher.__call__ perform self vector w).2
        = trace w
          ++ [EvRequest (Search (Elasticsearcher.index_name self) body)])
    /\ body !! "size" = Some (VInt 25)
    /\ body !! "_source"
       = Some (VDict {[ "includes" := VList [VStr "title"; VStr "abstract"] ]})
    /\ dom body = {[ "size"; "query"; "_source" ]}.
Proof.
  intros vector. exists (Elasticsearcher.request_body vector). split_and!.
  - intros E perform self w. rewrite searcher_call_run.
    apply perform_request_trace.
  - done.
  - done.
  - unfold Elasticsearcher.request_body.
    rewrite !dom_insert_L, dom_singleton_L. set_solver.
Qed.

(** C4.  The query of the request body is a script-score query over
    [match_all] whose script is the cosine similarity of the query vector
    and the stored [title_abstract_embeddings] plus 1.0, with the vector
    given as the parameter [query_vector]; and [__call__] returns what the
    client's search returns on that body, in every case: the body of the
    engine's answer as it is when the engine answers with a success. *)
Theorem query_is_cosine_script_score_and_returned_raw :
  forall {E : Type} (perform : request -> E -> response * E)
    (self : Elasticsearcher.t) (vector : list value) (w : world E),
    let sent := Elasticsearcher.request_body vector in
    let req := Search (Elasticsearcher.index_name self) sent in
    sent !! "query" =
      Some (VDict
        {[ "script_score" := VDict
             {[ "query" := VDict {[ "match_all" := VDict ∅ ]};
                "script" := VDict
                  {[ "source" := VStr
                       "cosineSimilarity(params.query_vector, doc['title_abstract_embeddings']) + 1.0";
                     "params" := VDict
                       {[ "query_vector" := VList vector ]} ]} ]} ]})
    /\ Elasticsearcher.__call__ perform self vector w
       = Elasticsearch.search perform (Elasticsearcher.index_name self) sent w
    /\ trace (Elasticsearcher.__call__ perform self vector w).2
       = trace w ++ [EvRequest req]
    /\ (200 <= status (perform req (engine w)).1 < 300 ->
        (Elasticsearcher.__call__ perform self vector w).1
        = Ok (body (perform req (engine w)).1)).
Proof.
  intros E perform self vector w sent req. split_and!.
  - done.
  - apply searcher_call_run.
  - rewrite searcher_call_run. apply perform_request_trace.
  - intros Hok. rewrite searcher_call_run.
    by apply perform_request_success.
Qed.

Lemma query_is_cosine_script_score_and_returned_raw_witness :
  let w : world ReferenceEngine.t :=
    World {[ "covid-19" := [Samples.paper 1] ]} [] in
  (Elasticsearcher.__call__ ReferenceEngine.perform
     (Elasticsearcher.Make "covid-19") [VFloat 1 (-1); VFloat 3 (-2)] w).1
  = Ok (VDict {[ "hits" := VList [VDict (Samples.paper 1)] ]}).
Proof.
  intros w.
  destruct (query_is_cosine_script_score_and_returned_raw
              ReferenceEngine.perform (Elasticsearcher.Make "covid-19")
              [VFloat 1 (-1); VFloat 3 (-2)] w)
    as (_ & _ & _ & Hraw).
  rewrite Hraw; [reflexivity | vm_compute].
  split; [intros H; discriminate H | reflexivity].
Defined.

(** ** The record streams *)

Section LoaderFacts.
Import ElasticSearchProvider.

Lemma stream_entries_cons n entry entries :
  stream_entries n (entry :: entries) =
    match truncate n entry with
    | Ok entry' =>
        (Yield entry' :: (stream_entries n entries).1,
         (stream_entries n entries).2)
    | Raise e => ([], Raise e)
    end.
Proof.
  unfold stream_entries. simpl. unfold gbind.
  destruct (truncate n entry) as [entry'|e]; [|done]. simpl.
  by destruct (gfor entries _).
Qed.

Lemma stream_entries_ok n es es' :
  Forall2 (fun r r' => truncate n r = Ok r') es es' ->
  stream_entries n es = (Yield <$> es', Ok tt).
Proof.
  induction 1 as [|r r' es es' Hr _ IH]; [done|].
  by rewrite stream_entries_cons, Hr, IH.
Qed.

Lemma stream_entries_raise n es1 es1' r e es2 :
  Forall2 (fun r r' => truncate n r = Ok r') es1 es1' ->
  truncate n r = Raise e ->
  stream_entries n (es1 ++ r :: es2) = (Yield <$> es1', Raise e).
Proof.
  intros Hes Hr. induction Hes as [|r0 r0' es es' Hr0 _ IH]; simpl.
  - by rewrite stream_entries_cons, Hr.
  - by rewrite stream_entries_cons, Hr0, IH.
Qed.

Lemma stream_entries_yielded n es r' :
  r' ∈ yielded (stream_entries n es).1 ->
  exists r, r ∈ es /\ truncate n r = Ok r'.
Proof.
  induction es as [|r es IH]; [by intros ?%elem_of_nil|].
  rewrite stream_entries_cons.
  destruct (truncate n r) as [r1|e] eqn:Hr; simpl;
    [|by intros ?%elem_of_nil].
  intros [->|Hin]%elem_of_cons.
  - exists r. split; [apply list_elem_of_here | done].
  - destruct (IH Hin) as (r0 & Hr0 & Ht). exists r0.
    split; [by apply list_elem_of_further | done].
Qed.

Lemma stream_entries_emitted n es : emitted (stream_entries n es).1 = [].
Proof.
  induction es as [|r es IH]; [done|].
  rewrite stream_entries_cons. by destruct (truncate n r).
Qed.

Lemma from_pkls_file_load_error fs n p e :
  pickle_load (content fs p) = Raise e ->
  from_pkls_file fs n p
  = ([Emit (Open p); Emit (LogWarning (ErrorProcessing e p))], Ok tt).
Proof. intros Hload. unfold from_pkls_file. simpl. by rewrite Hload. Qed.

Lemma from_pkls_file_loaded fs n p es :
  pickle_load (content fs p) = Ok es ->
  from_pkls_file fs n p
  = ([Emit (Open p); Emit (LogInfo (LoadingEntries p))]
     ++ (stream_entries n es).1
     ++ match (stream_entries n es).2 with
        | Ok _ => []
        | Raise e => [Emit (LogWarning (ErrorProcessing e p))]
        end,
     Ok tt).
Proof.
  intros Hload. unfold from_pkls_file. simpl. rewrite Hload. simpl.
  destruct (stream_entries n es) as [out [[]|e]]; simpl.
  - by rewrite app_nil_r.
  - done.
Qed.

Lemma from_pkls_file_ok fs n p : (from_pkls_file fs n p).2 = Ok tt.
Proof.
  destruct (pickle_load (content fs p)) as [es|e] eqn:Hload.
  - by rewrite (from_pkls_file_loaded _ _ _ _ Hload).
  - by rewrite (from_pkls_file_load_error _ _ _ _ Hload).
Qed.

Lemma from_pkls_file_opened fs n p :
  opened (emitted (from_pkls_file fs n p).1) = [p].
Proof.
  destruct (pickle_load (content fs p)) as [es|e] eqn:Hload.
  - rewrite (from_pkls_file_loaded _ _ _ _ Hload). simpl.
    rewrite emitted_app, stream_entries_emitted. simpl.
    by destruct (stream_entries n es).2.
  - by rewrite (from_pkls_file_load_error _ _ _ _ Hload).
Qed.

Lemma from_pkls_stream_cons fs n p ps :
  from_pkls_stream fs (p :: ps) n
  = ((from_pkls_file fs n p).1 ++ (from_pkls_stream fs ps n).1,
     (from_pkls_stream fs ps n).2).
Proof.
  unfold from_pkls_stream. simpl. unfold gbind.
  pose proof (from_pkls_file_ok fs n p) as Hok.
  destruct (from_pkls_file fs n p) as [out r]. simpl in *. subst r.
  by destruct (gfor ps _).
Qed.

Lemma from_pkls_stream_ok fs n ps : (from_pkls_stream fs ps n).2 = Ok tt.
Proof.
  induction ps as [|p ps IH]; [done|]. by rewrite from_pkls_stream_cons.
Qed.

Lemma from_pkls_stream_app fs n ps1 ps2 :
  (from_pkls_stream fs (ps1 ++ ps2) n).1
  = (from_pkls_stream fs ps1 n).1 ++ (from_pkls_stream fs ps2 n).1.
Proof.
  induction ps1 as [|p ps1 IH]; [done|]. simpl.
  rewrite !from_pkls_stream_cons. simpl. by rewrite IH, (assoc_L (++)).
Qed.

Lemma from_pkls_stream_opened fs n ps :
  opened (emitted (from_pkls_stream fs ps n).1) = ps.
Proof.
  induction ps as [|p ps IH]; [done|].
  rewrite from_pkls_stream_cons. simpl.
  by rewrite emitted_app, opened_app, from_pkls_file_opened, IH.
Qed.

Lemma from_pkls_stream_yielded fs n ps r' :
  r' ∈ yielded (from_pkls_stream fs ps n).1 ->
  exists p es r,
    p ∈ ps /\ pickle_load (content fs p) = Ok es /\ r ∈ es
    /\ truncate n r = Ok r'.
Proof.
  induction ps as [|p ps IH]; [by intros ?%elem_of_nil|].
  rewrite from_pkls_stream_cons. simpl. rewrite yielded_app.
  intros [Hin|Hin]%elem_of_app.
  - destruct (pickle_load (content fs p)) as [es|e] eqn:Hload.
    + rewrite (from_pkls_file_loaded _ _ _ _ Hload) in Hin. simpl in Hin.
      rewrite yielded_app in Hin. apply elem_of_app in Hin as [Hin|Hin].
      * destruct (stream_entries_yielded _ _ _ Hin) as (r & Hr & Ht).
        exists p, es, r. split_and!; try done. apply list_elem_of_here.
      * destruct (stream_entries n es).2; by apply elem_of_nil in Hin.
    + rewrite (from_pkls_file_load_error _ _ _ _ Hload) in Hin.
      by apply elem_of_nil in Hin.
  - destruct (IH Hin) as (p0 & es & r & Hp & Hload & Hr & Ht).
    exists p0, es, r. split_and!; try done. by apply list_elem_of_further.
Qed.

(** The provider that [from_pkls] builds: one log line, an empty buffer, the
    default index name, and a generator that finishes without raising. *)
Lemma from_pkls_provider {E : Type} fs root n index_file (w : world E) :
  exists provider,
    from_pkls fs root n index_file w
    = (Ok provider,
       World (engine w)
         (trace w
          ++ [EvLocal (LogInfo (FoundFiles (length (glob_pkl fs root)) root))]))
    /\ items (entries provider)
       = (from_pkls_stream fs (glob_pkl fs root) n).1
    /\ finish (entries provider) = Ok tt
    /\ doc provider = []
    /\ index_name provider = default_index_name.
Proof.
  eexists. split; [reflexivity|]. simpl.
  split_and!; try done. apply from_pkls_stream_ok.
Qed.
End LoaderFacts.

(** C6.  Whatever the files, the generator of [from_pkls] raises nothing to
    its consumer and opens every file once, in the order of the listing.  A
    file that cannot be read or deserialized is opened, the error is logged
    as a warning, and nothing of it is yielded; a file in which a record
    raises yields the records before it, logs the error, and yields neither
    that record nor the ones after it; in both cases the stream goes on with
    the next file. *)
Theorem from_pkls_skips_files_with_errors :
  forall (fs : filesystem) (n_paragraphs : Z),
    let stream paths :=
      ElasticSearchProvider.from_pkls_stream fs paths n_paragraphs in
    let file := ElasticSearchProvider.from_pkls_file fs n_paragraphs in
    (forall paths,
        (stream paths).2 = Ok tt
        /\ opened (emitted (stream paths).1) = paths)
    /\ (forall before path after,
           (stream (before ++ path :: after)).1
           = (stream before).1 ++ (file path).1 ++ (stream after).1)
    /\ (forall path e,
           pickle_load (content fs path) = Raise e ->
           file path
           = ([Emit (Open path);
               Emit (LogWarning (ErrorProcessing e path))], Ok tt))
    /\ (forall path read read' entry e skipped,
           pickle_load (content fs path) = Ok (read ++ entry :: skipped) ->
           Forall2
             (fun r r' =>
                ElasticSearchProvider.truncate n_paragraphs r = Ok r')
             read read' ->
           ElasticSearchProvider.truncate n_paragraphs entry = Raise e ->
           file path
           = ([Emit (Open path); Emit (LogInfo (LoadingEntries path))]
              ++ (Yield <$> read')
              ++ [Emit (LogWarning (ErrorProcessing e path))], Ok tt)).
Proof.
  intros fs n stream file. split_and!.
  - intros paths. split.
    + apply from_pkls_stream_ok.
    + apply from_pkls_stream_opened.
  - intros before path after. unfold stream.
    rewrite from_pkls_stream_app, from_pkls_stream_cons. done.
  - intros path e Hload. by apply from_pkls_file_load_error.
  - intros path read read' entry e skipped Hload Hread Hentry. unfold file.
    rewrite (from_pkls_file_loaded _ _ _ _ Hload).
    by rewrite (stream_entries_raise _ _ _ _ _ _ Hread Hentry).
Qed.

Lemma from_pkls_skips_files_with_errors_witness :
  ElasticSearchProvider.from_pkls_file Samples.disk 100 "data/broken.pkl"
  = ([Emit (Open "data/broken.pkl");
      Emit (LogWarning (ErrorProcessing UnpicklingError "data/broken.pkl"))],
     Ok tt)
  /\ ElasticSearchProvider.from_pkls_file Samples.disk 100 "data/partial.pkl"
     = ([Emit (Open "data/partial.pkl");
         Emit (LogInfo (LoadingEntries "data/partial.pkl"))]
        ++ (Yield <$> [Samples.paper 8])
        ++ [Emit (LogWarning
                    (ErrorProcessing (KeyError "paragraphs_embeddings")
                       "data/partial.pkl"))],
        Ok tt).
Proof.
  destruct (from_pkls_skips_files_with_errors Samples.disk 100)
    as (_ & _ & Hload & Hentry).
  split.
  - apply Hload. reflexivity.
  - apply (Hentry "data/partial.pkl" [Samples.paper 8] [Samples.paper 8]
             Samples.no_embeddings_paper (KeyError "paragraphs_embeddings")
             [Samples.full_paper]).
    + reflexivity.
    + repeat constructor.
    + reflexivity.
Defined.

(** ** The truncation *)

Section TruncateFacts.
Import ElasticSearchProvider.

Lemma contains_true d key : contains d key = true <-> is_Some (d !! key).
Proof. unfold contains. apply bool_decide_eq_true. Qed.

Lemma truncate_without_paragraphs n r :
  contains r "paragraphs" = false -> truncate n r = Ok r.
Proof. intros H. unfold truncate. by rewrite H. Qed.

Lemma truncate_ok_inv n r r' :
  truncate n r = Ok r' ->
  contains r "paragraphs" = true ->
  exists p pe p' pe',
    r !! "paragraphs" = Some p
    /\ r !! "paragraphs_embeddings" = Some pe
    /\ slice_to p n = Ok p'
    /\ slice_to pe n = Ok pe'
    /\ r' = <["paragraphs_embeddings" := pe']> (<["paragraphs" := p']> r).
Proof.
  unfold truncate, getitem. intros Ht Hc. rewrite Hc in Ht.
  destruct (r !! "paragraphs") as [p|] eqn:Hp; [|done]. simpl in Ht.
  destruct (slice_to p n) as [p'|] eqn:Hp'; [|done]. simpl in Ht.
  rewrite lookup_insert_ne in Ht by done.
  destruct (r !! "paragraphs_embeddings") as [pe|] eqn:Hpe; [|done].
  simpl in Ht.
  destruct (slice_to pe n) as [pe'|] eqn:Hpe'; [|done]. simpl in Ht.
  injection Ht as <-. by exists p, pe, p', pe'.
Qed.

Lemma truncate_contains n r r' :
  truncate n r = Ok r' ->
  contains r' "paragraphs" = contains r "paragraphs".
Proof.
  intros Ht. destruct (contains r "paragraphs") eqn:Hc.
  - destruct (truncate_ok_inv _ _ _ Ht Hc)
      as (p & pe & p' & pe' & _ & _ & _ & _ & ->).
    apply contains_true. rewrite lookup_insert_ne by done.
    rewrite lookup_insert_eq. by eexists.
  - rewrite truncate_without_paragraphs in Ht by done. by injection Ht as <-.
Qed.

Lemma take_slice_stop {A} n (l : list A) :
  0 <= n -> take (slice_stop n (length l)) l = take (Z.to_nat n) l.
Proof.
  intros Hn. unfold slice_stop.
  destruct (0 <=? n) eqn:Hle; [|apply Z.leb_gt in Hle; lia].
  destruct (Nat.le_ge_cases (Z.to_nat n) (length l)) as [Hl|Hl].
  - by rewrite Nat.min_l.
  - rewrite Nat.min_r by done. by rewrite !take_ge.
Qed.

Lemma slice_to_list_inv n p l' :
  slice_to p n = Ok (VList l') ->
  exists l, p = VList l /\ l' = take (slice_stop n (length l)) l.
Proof.
  destruct p; simpl; try done. intros [= <-]. by eexists.
Qed.

(** A record with paragraphs that can be sliced and no embeddings raises
    the missing-key error. *)
Lemma truncate_missing_embeddings n r p p' :
  r !! "paragraphs" = Some p ->
  slice_to p n = Ok p' ->
  r !! "paragraphs_embeddings" = None ->
  truncate n r = Raise (KeyError "paragraphs_embeddings").
Proof.
  intros Hp Hp' Hpe. unfold truncate, getitem.
  rewrite (proj2 (contains_true r "paragraphs")) by (by eexists).
  rewrite Hp. simpl. rewrite Hp'. simpl.
  rewrite lookup_insert_ne by done. by rewrite Hpe.
Qed.

(** Paragraphs that cannot be sliced raise a type error, whatever the
    other fields. *)
Lemma truncate_unsliceable n r p :
  r !! "paragraphs" = Some p ->
  slice_to p n = Raise TypeError ->
  truncate n r = Raise TypeError.
Proof.
  intros Hp Hp'. unfold truncate, getitem.
  rewrite (proj2 (contains_true r "paragraphs")) by (by eexists).
  rewrite Hp. simpl. by rewrite Hp'.
Qed.
End TruncateFacts.

(** C2, as the code has it.  With a limit that is not negative, a record
    that [from_pkls] yields and that has the key [paragraphs] is a record of
    a file with its two fields cut: it has the key [paragraphs_embeddings]
    too, each of the two lists is the first [n_paragraphs] elements of the
    list in the file (all of it when it is shorter), so it has at most
    [n_paragraphs] elements, and the two have equal length when they had
    equal length in the file. *)
Theorem from_pkls_truncates_paragraphs :
  forall (fs : filesystem) (paths : list string) (n_paragraphs : Z)
    (entry' : record),
    0 <= n_paragraphs ->
    entry' ∈ yielded
      (ElasticSearchProvider.from_pkls_stream fs paths n_paragraphs).1 ->
    contains entry' "paragraphs" = true ->
    exists path entries entry,
      path ∈ paths
      /\ pickle_load (content fs path) = Ok entries
      /\ entry ∈ entries
      /\ ElasticSearchProvider.truncate n_paragraphs entry = Ok entry'
      /\ is_Some (entry' !! "paragraphs_embeddings")
      /\ forall ps' pes',
          entry' !! "paragraphs" = Some (VList ps') ->
          entry' !! "paragraphs_embeddings" = Some (VList pes') ->
          exists ps pes,
            entry !! "paragraphs" = Some (VList ps)
            /\ entry !! "paragraphs_embeddings" = Some (VList pes)
            /\ ps' = take (Z.to_nat n_paragraphs) ps
            /\ pes' = take (Z.to_nat n_paragraphs) pes
            /\ Z.of_nat (length ps') <= n_paragraphs
            /\ Z.of_nat (length pes') <= n_paragraphs
            /\ (length ps = length pes -> length ps' = length pes').
Proof.
  intros fs paths n entry' Hn Hin Hc.
  destruct (from_pkls_stream_yielded _ _ _ _ Hin)
    as (path & entries & entry & Hpath & Hload & Hentry & Ht).
  exists path, entries, entry. split_and!; try done.
  all: rewrite (truncate_contains _ _ _ Ht) in Hc;
    destruct (truncate_ok_inv _ _ _ Ht Hc)
      as (p & pe & p' & pe' & Hp & Hpe & Hp' & Hpe' & ->).
  - rewrite lookup_insert_eq. by eexists.
  - intros ps' pes'. rewrite lookup_insert_ne by done.
    rewrite !lookup_insert_eq. intros [= ->] [= ->].
    apply slice_to_list_inv in Hp' as (ps & -> & ->).
    apply slice_to_list_inv in Hpe' as (pes & -> & ->).
    rewrite !take_slice_stop by done.
    exists ps, pes. split_and!; try done.
    + rewrite length_take. lia.
    + rewrite length_take. lia.
    + intros Hlen. rewrite !length_take. lia.
Qed.

Lemma from_pkls_truncates_paragraphs_witness :
  exists entry',
    entry' !! "paragraphs" = Some (VList [VStr "p1"; VStr "p2"])
    /\ exists path entries entry,
        path ∈ ["data/a.pkl"]
        /\ pickle_load (content Samples.disk path) = Ok entries
        /\ entry ∈ entries
        /\ ElasticSearchProvider.truncate 2 entry = Ok entry'.
Proof.
  exists (<["paragraphs_embeddings" :=
             VList [Samples.embedding 1; Samples.embedding 2]]>
            (<["paragraphs" := VList [VStr "p1"; VStr "p2"]]>
               Samples.full_paper)).
  split; [reflexivity|].
  destruct (from_pkls_truncates_paragraphs Samples.disk ["data/a.pkl"] 2
              (<["paragraphs_embeddings" :=
                   VList [Samples.embedding 1; Samples.embedding 2]]>
                 (<["paragraphs" := VList [VStr "p1"; VStr "p2"]]>
                    Samples.full_paper)))
    as (path & entries & entry & Hpath & Hload & Hentry & Ht & _).
  - lia.
  - replace (yielded _) with
      [<["paragraphs_embeddings" :=
           VList [Samples.embedding 1; Samples.embedding 2]]>
         (<["paragraphs" := VList [VStr "p1"; VStr "p2"]]>
            Samples.full_paper);
       Samples.paper 7]
      by (vm_compute; reflexivity).
    apply list_elem_of_here.
  - reflexivity.
  - exists path, entries, entry. split_and!; assumption.
Defined.

(** C2, as stated, fails: lists of different lengths that are both under
    the limit stay of different lengths, and with a negative limit the
    lists that are left are longer than the limit. *)
Lemma from_pkls_lists_not_always_equal_or_under_limit :
  (exists entry',
      entry' ∈ yielded
        (ElasticSearchProvider.from_pkls_stream Samples.disk
           ["data/uneven.pkl"] 100).1
      /\ ~ Stated.truncated_and_equal 100 entry')
  /\ (exists entry',
         entry' ∈ yielded
           (ElasticSearchProvider.from_pkls_stream Samples.disk
              ["data/a.pkl"] (-1)).1
         /\ ~ Stated.truncated_and_equal (-1) entry').
Proof.
  split.
  - exists Samples.uneven_paper. split.
    + replace (yielded _) with [Samples.uneven_paper]
        by (vm_compute; reflexivity).
      apply list_elem_of_here.
    + intros H.
      destruct (H eq_refl) as (ps & pes & Hps & Hpes & _ & _ & Hlen).
      change (Some (VList [VStr "p1"; VStr "p2"; VStr "p3"])
              = Some (VList ps)) in Hps.
      change (Some (VList [Samples.embedding 1; Samples.embedding 2])
              = Some (VList pes)) in Hpes.
      injection Hps as <-. injection Hpes as <-. discriminate Hlen.
  - exists (<["paragraphs_embeddings" :=
               VList [Samples.embedding 1; Samples.embedding 2]]>
              (<["paragraphs" := VList [VStr "p1"; VStr "p2"]]>
                 Samples.full_paper)).
    split.
    + replace (yielded _) with
        [<["paragraphs_embeddings" :=
             VList [Samples.embedding 1; Samples.embedding 2]]>
           (<["paragraphs" := VList [VStr "p1"; VStr "p2"]]>
              Samples.full_paper);
         Samples.paper 7]
        by (vm_compute; reflexivity).
      apply list_elem_of_here.
    + intros H. destruct (H eq_refl) as (ps & pes & Hps & _ & Hle & _).
      change (Some (VList [VStr "p1"; VStr "p2"]) = Some (VList ps)) in Hps.
      injection Hps as <-. simpl in Hle. lia.
Qed.

(** ** The tagging *)

(** C8, as the code has it.  The record that goes to the buffer, and from
    there to the bulk endpoint, is the source record merged with the two
    fields [_op_type = 'index'] and [_index = the index name]: it has these
    two fields with these values, its keys are those of the source and these
    two, and every field of the source under another name keeps its value.
    Appending it changes nothing but the buffer, and leaves the source
    record as it was. *)
Theorem entry_elastic_adds_the_metadata :
  forall (index_name : string) (entry : record),
    let tagged := ElasticSearchProvider.entry_elastic index_name entry in
    tagged !! "_op_type" = Some (VStr "index")
    /\ tagged !! "_index" = Some (VStr index_name)
    /\ dom tagged = dom entry ∪ {[ "_op_type"; "_index" ]}
    /\ (forall key,
          key <> "_op_type" -> key <> "_index" ->
          tagged !! key = entry !! key)
    /\ (forall (E : Type) (self : ElasticSearchProvider.t) (w : world E),
          ElasticSearchProvider.index_name self = index_name ->
          ElasticSearchProvider.append_entry entry (self, w)
          = (Ok tt,
             (ElasticSearchProvider.with_doc self
                (ElasticSearchProvider.doc self ++ [tagged]), w))).
Proof.
  intros index_name entry tagged. subst tagged.
  unfold ElasticSearchProvider.entry_elastic, dict_merge. split_and!.
  - apply lookup_union_Some_l. by rewrite lookup_insert_eq.
  - apply lookup_union_Some_l. rewrite lookup_insert_ne by done.
    by rewrite lookup_singleton_eq.
  - rewrite dom_union_L, dom_insert_L, dom_singleton_L.
    apply (comm_L (∪)).
  - intros key H1 H2. apply lookup_union_r.
    rewrite lookup_insert_ne by done. by apply lookup_singleton_ne.
  - intros E self w <-. reflexivity.
Qed.

Lemma entry_elastic_adds_the_metadata_witness :
  ElasticSearchProvider.entry_elastic "covid-19" Samples.routed_paper
    !! "title" = Some (VStr "routed").
Proof.
  destruct (entry_elastic_adds_the_metadata "covid-19" Samples.routed_paper)
    as (_ & _ & _ & Hkeep & _).
  rewrite (Hkeep "title"); [reflexivity | discriminate | discriminate].
Defined.

(** C8, as stated, fails: a field [_index] of the source record does not
    keep its value. *)
Lemma entry_elastic_overwrites_metadata_fields :
  ~ Stated.tagging_keeps_every_field "covid-19" Samples.routed_paper.
Proof.
  intros H. specialize (H "_index" (VStr "other") eq_refl).
  vm_compute in H. discriminate H.
Qed.

(** Paragraphs that are [None] raise a type error, with or without
    embeddings. *)
Lemma truncate_null_paragraphs n_paragraphs :
  ElasticSearchProvider.truncate n_paragraphs Samples.null_paragraphs_paper
  = Raise TypeError.
Proof. by apply (truncate_unsliceable _ _ VNone). Qed.

(** ** The generator of from_pkl *)

Lemma from_pkl_stream_raises entries n_paragraphs :
  ElasticSearchProvider.from_pkl_stream entries n_paragraphs
  = ([], Raise (UnboundLocalError "entries")).
Proof. reflexivity. Qed.

(** C10.  On a file whose second record has paragraphs and no embeddings,
    [from_pkls] yields the first record, logs the missing key and yields
    nothing more of the file.  [from_pkl] on the same file returns a
    provider whose generator raises the unbound local [entries] when the
    first record is asked for: a run deletes and creates the index, then
    raises that error, and no record is read. *)
Theorem from_pkl_raises_before_the_first_record :
  let path := "data/partial.pkl" in
  let missing := ErrorProcessing (KeyError "paragraphs_embeddings") path in
  run_generator
    (ElasticSearchProvider.from_pkls_stream Samples.disk [path] 100)
  = Generator
      [Emit (Open path); Emit (LogInfo (LoadingEntries path));
       Yield (Samples.paper 8); Emit (LogWarning missing)]
      (Ok tt)
  /\ exists provider w,
      ElasticSearchProvider.from_pkl Samples.disk path 100 Samples.mapping
        ReferenceEngine.empty_world
      = (Ok provider, w)
      /\ ElasticSearchProvider.entries provider
         = Generator [] (Raise (UnboundLocalError "entries"))
      /\ (ElasticSearchProvider.__call__ ReferenceEngine.perform 128
            (provider, w)).1
         = Raise (UnboundLocalError "entries")
      /\ requests
           (trace
              (ElasticSearchProvider.__call__ ReferenceEngine.perform 128
                 (provider, w)).2.2)
         = [IndicesDelete "covid-19";
            IndicesCreate "covid-19" Samples.mapping].
Proof.
  intros path missing. split; [reflexivity|].
  eexists _, _. split_and!; reflexivity.
Qed.


(** * Further properties *)

(** ** More on the truncation *)

Section TruncateMore.
Import ElasticSearchProvider.

Lemma substring_0_cons k a s :
  String.substring 0 (S k) (String a s) = String a (String.substring 0 k s).
Proof. reflexivity. Qed.

Lemma substring_0_length k s :
  (k <= String.length s)%nat ->
  String.length (String.substring 0 k s) = k.
Proof.
  revert k. induction s as [|a s IH]; intros [|k] Hk; simpl in *;
    try done; try lia.
  rewrite IH; [done | lia].
Qed.

Lemma substring_0_idem k s :
  String.substring 0 k (String.substring 0 k s) = String.substring 0 k s.
Proof.
  revert k. induction s as [|a s IH]; intros [|k]; simpl; try done.
  by rewrite IH.
Qed.

Lemma slice_stop_le n len : (slice_stop n len <= len)%nat.
Proof.
  unfold slice_stop. destruct (0 <=? n) eqn:Hle; [lia|].
  apply Z.leb_gt in Hle. lia.
Qed.

Lemma slice_stop_idem n len :
  0 <= n -> slice_stop n (slice_stop n len) = slice_stop n len.
Proof.
  intros Hn. unfold slice_stop.
  destruct (0 <=? n) eqn:Hle; [lia | apply Z.leb_gt in Hle; lia].
Qed.

Lemma slice_to_idem n x x' :
  0 <= n -> slice_to x n = Ok x' -> slice_to x' n = Ok x'.
Proof.
  intros Hn. destruct x; simpl; try done; intros [= <-]; simpl.
  - rewrite substring_0_length by apply slice_stop_le.
    by rewrite slice_stop_idem, substring_0_idem.
  - rewrite length_take, Nat.min_l by apply slice_stop_le.
    rewrite slice_stop_idem by done.
    by rewrite take_take, Nat.min_id.
Qed.
End TruncateMore.

Section TruncateTheorems.
Import ElasticSearchProvider.

(** X1.  A truncation that returns touches nothing but the two lists: the
    record keeps its keys, and every field under another name keeps its
    value. *)
Theorem truncate_keeps_the_other_fields :
  forall (n_paragraphs : Z) (entry entry' : record),
    truncate n_paragraphs entry = Ok entry' ->
    dom entry' = dom entry
    /\ forall key,
        key <> "paragraphs" -> key <> "paragraphs_embeddings" ->
        entry' !! key = entry !! key.
Proof.
  intros n entry entry' Ht.
  destruct (contains entry "paragraphs") eqn:Hc.
  - destruct (truncate_ok_inv _ _ _ Ht Hc)
      as (p & pe & p' & pe' & Hp & Hpe & _ & _ & ->).
    split.
    + rewrite !dom_insert_lookup_L; try done.
      rewrite lookup_insert_ne by done. by eexists.
    + intros key H1 H2. by rewrite !lookup_insert_ne.
  - rewrite truncate_without_paragraphs in Ht by done.
    by injection Ht as <-.
Qed.

Lemma truncate_keeps_the_other_fields_witness :
  exists entry',
    truncate 2 Samples.full_paper = Ok entry'
    /\ entry' !! "title" = Some (VStr "full").
Proof.
  eexists. split; [reflexivity|].
  destruct (truncate_keeps_the_other_fields 2 Samples.full_paper _ eq_refl)
    as [_ Hkeep].
  rewrite Hkeep; [reflexivity | discriminate | discriminate].
Defined.

(** X2.  With a limit that is not negative, a record whose two lists are
    within the limit, and a record without the key [paragraphs] whatever its
    embeddings, comes out of the truncation as it went in. *)
Theorem truncate_within_limit_is_identity :
  forall (n_paragraphs : Z) (entry : record),
    0 <= n_paragraphs ->
    (contains entry "paragraphs" = true ->
     exists ps pes,
       entry !! "paragraphs" = Some (VList ps)
       /\ entry !! "paragraphs_embeddings" = Some (VList pes)
       /\ Z.of_nat (length ps) <= n_paragraphs
       /\ Z.of_nat (length pes) <= n_paragraphs) ->
    truncate n_paragraphs entry = Ok entry.
Proof.
  intros n entry Hn Hlists.
  destruct (contains entry "paragraphs") eqn:Hc.
  - destruct (Hlists eq_refl) as (ps & pes & Hps & Hpes & Hlps & Hlpes).
    unfold truncate, getitem. rewrite Hc, Hps. simpl.
    rewrite take_slice_stop, take_ge by lia.
    rewrite (insert_id entry) by done. rewrite Hpes. simpl.
    rewrite take_slice_stop, take_ge by lia.
    by rewrite insert_id.
  - by apply truncate_without_paragraphs.
Qed.

Lemma truncate_within_limit_is_identity_witness :
  truncate 3 Samples.full_paper = Ok Samples.full_paper
  /\ truncate 0 (Samples.paper 1) = Ok (Samples.paper 1).
Proof.
  split.
  - apply truncate_within_limit_is_identity; [lia|].
    intros _. eexists _, _. split_and!; [reflexivity | reflexivity | |];
      simpl; lia.
  - apply truncate_within_limit_is_identity; [lia|].
    intros Hc. discriminate Hc.
Defined.

(** X3.  With a limit that is not negative the truncation is idempotent: a
    record that it returned is returned unchanged when truncated again. *)
Theorem truncate_is_idempotent :
  forall (n_paragraphs : Z) (entry entry' : record),
    0 <= n_paragraphs ->
    truncate n_paragraphs entry = Ok entry' ->
    truncate n_paragraphs entry' = Ok entry'.
Proof.
  intros n entry entry' Hn Ht.
  destruct (contains entry "paragraphs") eqn:Hc.
  - destruct (truncate_ok_inv _ _ _ Ht Hc)
      as (p & pe & p' & pe' & Hp & Hpe & Hp' & Hpe' & ->).
    unfold truncate, getitem.
    rewrite (proj2 (contains_true _ "paragraphs")).
    2: { rewrite lookup_insert_ne by done. rewrite lookup_insert_eq.
         by eexists. }
    rewrite lookup_insert_ne by done. rewrite lookup_insert_eq. simpl.
    rewrite (slice_to_idem _ _ _ Hn Hp'). simpl.
    rewrite lookup_insert_ne by done. rewrite lookup_insert_eq. simpl.
    rewrite (slice_to_idem _ _ _ Hn Hpe'). simpl.
    f_equal.
    rewrite (insert_id (<["paragraphs_embeddings":=pe']> _) "paragraphs").
    2: { rewrite lookup_insert_ne by done. by rewrite lookup_insert_eq. }
    apply insert_id. by rewrite lookup_insert_eq.
  - rewrite truncate_without_paragraphs in Ht by done.
    injection Ht as <-. by apply truncate_without_paragraphs.
Qed.

Lemma truncate_is_idempotent_witness :
  exists entry',
    truncate 2 Samples.full_paper = Ok entry'
    /\ truncate 2 entry' = Ok entry'.
Proof.
  eexists. split; [reflexivity|].
  apply (truncate_is_idempotent 2 Samples.full_paper); [lia | reflexivity].
Defined.

(** X4.  A negative limit does not bound the lists: it removes the last
    [-n_paragraphs] elements of each, so what is left depends on the length
    the list had. *)
Theorem truncate_negative_limit_drops_last :
  forall (n_paragraphs : Z) (entry entry' : record) (ps pes : list value),
    n_paragraphs < 0 ->
    truncate n_paragraphs entry = Ok entry' ->
    entry !! "paragraphs" = Some (VList ps) ->
    entry !! "paragraphs_embeddings" = Some (VList pes) ->
    let cut := Z.to_nat (- n_paragraphs) in
    entry' !! "paragraphs" = Some (VList (take (length ps - cut) ps))
    /\ entry' !! "paragraphs_embeddings"
       = Some (VList (take (length pes - cut) pes)).
Proof.
  intros n entry entry' ps pes Hn Ht Hps Hpes cut.
  assert (Hc : contains entry "paragraphs" = true)
    by (apply contains_true; by eexists).
  destruct (truncate_ok_inv _ _ _ Ht Hc)
    as (p & pe & p' & pe' & Hp & Hpe & Hp' & Hpe' & ->).
  rewrite Hps in Hp. injection Hp as <-.
  rewrite Hpes in Hpe. injection Hpe as <-.
  simpl in Hp', Hpe'. injection Hp' as <-. injection Hpe' as <-.
  assert (Hstop : forall len, slice_stop n len = (len - cut)%nat).
  { intros len. unfold slice_stop, cut.
    destruct (0 <=? n) eqn:Hle; [apply Z.leb_le in Hle; lia | lia]. }
  rewrite !Hstop. split.
  - rewrite lookup_insert_ne by done. by rewrite lookup_insert_eq.
  - by rewrite lookup_insert_eq.
Qed.

Lemma truncate_negative_limit_drops_last_witness :
  exists entry',
    truncate (-1) Samples.full_paper = Ok entry'
    /\ entry' !! "paragraphs" = Some (VList [VStr "p1"; VStr "p2"]).
Proof.
  exists (<["paragraphs_embeddings" :=
             VList [Samples.embedding 1; Samples.embedding 2]]>
            (<["paragraphs" := VList [VStr "p1"; VStr "p2"]]>
               Samples.full_paper)).
  split; [reflexivity|].
  destruct (truncate_negative_limit_drops_last (-1) Samples.full_paper
              (<["paragraphs_embeddings" :=
                   VList [Samples.embedding 1; Samples.embedding 2]]>
                 (<["paragraphs" := VList [VStr "p1"; VStr "p2"]]>
                    Samples.full_paper))
              [VStr "p1"; VStr "p2"; VStr "p3"]
              [Samples.embedding 1; Samples.embedding 2; Samples.embedding 3])
    as [Hps _]; [lia | reflexivity | reflexivity | reflexivity |].
  exact Hps.
Defined.

(** X5.  The truncation raises in three cases only, all of a record that
    has the key [paragraphs]: a type error when the paragraphs cannot be
    sliced; the missing key [paragraphs_embeddings] when they can and the
    record has no embeddings; a type error when the embeddings cannot be
    sliced. *)
Theorem truncate_raises_only_key_or_type_error :
  forall (n_paragraphs : Z) (entry : record) (e : exn),
    truncate n_paragraphs entry = Raise e ->
    exists p,
      entry !! "paragraphs" = Some p
      /\ ((e = TypeError /\ slice_to p n_paragraphs = Raise TypeError)
          \/ (exists p',
                slice_to p n_paragraphs = Ok p'
                /\ ((e = KeyError "paragraphs_embeddings"
                     /\ entry !! "paragraphs_embeddings" = None)
                    \/ (e = TypeError
                        /\ exists pe,
                            entry !! "paragraphs_embeddings" = Some pe
                            /\ slice_to pe n_paragraphs = Raise TypeError)))).
Proof.
  intros n entry e. unfold truncate, getitem.
  destruct (contains entry "paragraphs") eqn:Hc; [|done].
  apply contains_true in Hc as [p Hp]. rewrite Hp. simpl. intros Ht.
  exists p. split; [done|].
  assert (Hslice : forall x e0, slice_to x n = Raise e0 -> e0 = TypeError)
    by (intros [] e0; simpl; congruence).
  destruct (slice_to p n) as [p'|e1] eqn:Hp'; simpl in Ht.
  - right. exists p'. split; [done|].
    rewrite lookup_insert_ne in Ht by done.
    destruct (entry !! "paragraphs_embeddings") as [pe|] eqn:Hpe;
      simpl in Ht.
    + destruct (slice_to pe n) as [pe'|e2] eqn:Hpe'; simpl in Ht; [done|].
      injection Ht as <-. pose proof (Hslice _ _ Hpe') as ->.
      right. split; [done|]. by exists pe.
    + injection Ht as <-. by left.
  - injection Ht as <-. pose proof (Hslice _ _ Hp') as ->. by left.
Qed.

Lemma truncate_raises_only_key_or_type_error_witness :
  exists p,
    Samples.no_embeddings_paper !! "paragraphs" = Some p
    /\ truncate 100 Samples.no_embeddings_paper
       = Raise (KeyError "paragraphs_embeddings").
Proof.
  destruct (truncate_raises_only_key_or_type_error 100
              Samples.no_embeddings_paper (KeyError "paragraphs_embeddings")
              eq_refl) as (p & Hp & _).
  exists p. split; [exact Hp | reflexivity].
Defined.
End TruncateTheorems.

(** ** More on the stream of from_pkls *)

Section StreamTheorems.
Import ElasticSearchProvider.

Lemma warnings_app l1 l2 : warnings (l1 ++ l2) = warnings l1 ++ warnings l2.
Proof. apply omap_app. Qed.

(** The warnings of one file: none, or one that names the file. *)
Lemma from_pkls_file_warnings fs n p :
  warnings (emitted (from_pkls_file fs n p).1) = []
  \/ exists e,
      warnings (emitted (from_pkls_file fs n p).1) = [ErrorProcessing e p].
Proof.
  destruct (pickle_load (content fs p)) as [es|e] eqn:Hload.
  - rewrite (from_pkls_file_loaded _ _ _ _ Hload). simpl.
    rewrite emitted_app, stream_entries_emitted. simpl.
    destruct (stream_entries n es).2 as [|e]; [by left | right; by exists e].
  - rewrite (from_pkls_file_load_error _ _ _ _ Hload). right. by exists e.
Qed.

(** X6.  When every listed file can be read and no record of it raises, the
    stream yields the truncated records of all the files, file after file
    in the order of the listing and in the order of each file; it opens
    each file and logs that it loads it, and logs no warning. *)
Theorem from_pkls_yields_all_records_of_clean_files :
  forall (fs : filesystem) (n_paragraphs : Z) (paths : list string)
    (outs : list (list record)),
    Forall2
      (fun path out =>
         exists entries,
           pickle_load (content fs path) = Ok entries
           /\ Forall2 (fun r r' => truncate n_paragraphs r = Ok r')
                entries out)
      paths outs ->
    let stream := (from_pkls_stream fs paths n_paragraphs).1 in
    yielded stream = concat outs
    /\ emitted stream
       = concat ((fun p => [Open p; LogInfo (LoadingEntries p)]) <$> paths)
    /\ warnings (emitted stream) = [].
Proof.
  intros fs n paths outs Hclean. simpl.
  induction Hclean as [|p out paths outs (es & Hload & Hes) _ IH]; [done|].
  destruct IH as (IHy & IHe & IHw).
  rewrite from_pkls_stream_cons. simpl.
  rewrite (from_pkls_file_loaded _ _ _ _ Hload).
  rewrite (stream_entries_ok _ _ _ Hes). simpl.
  rewrite app_nil_r.
  assert (Hy : yielded (Yield <$> out) = out).
  { clear. induction out as [|r out IH]; [done|]. simpl. by f_equal. }
  assert (He : emitted (Yield <$> out) = []).
  { clear. induction out as [|r out IH]; [done|]. done. }
  rewrite !yielded_app, !emitted_app, Hy, He, IHy, IHe. simpl.
  split_and!; try done.
  change (warnings (concat ((fun p => [Open p; LogInfo (LoadingEntries p)])
                            <$> paths)) = []).
  by rewrite <- IHe.
Qed.

Lemma from_pkls_yields_all_records_of_clean_files_witness :
  yielded
    (from_pkls_stream Samples.disk ["data/uneven.pkl"; "data/a.pkl"] 100).1
  = concat [[Samples.uneven_paper]; [Samples.full_paper; Samples.paper 7]].
Proof.
  apply (from_pkls_yields_all_records_of_clean_files Samples.disk 100
           ["data/uneven.pkl"; "data/a.pkl"]
           [[Samples.uneven_paper]; [Samples.full_paper; Samples.paper 7]]).
  repeat constructor.
  - exists [Samples.uneven_paper]. split; [reflexivity|].
    repeat constructor.
  - exists [Samples.full_paper; Samples.paper 7]. split; [reflexivity|].
    repeat constructor.
Defined.

(** X7.  The stream logs at most one warning for a file: its warnings are
    those of some of the listed files, in the order of the listing, each
    naming its file. *)
Theorem from_pkls_warns_once_per_file :
  forall (fs : filesystem) (n_paragraphs : Z) (paths : list string),
  exists failing : list (string * exn),
    warnings (emitted (from_pkls_stream fs paths n_paragraphs).1)
    = (fun pe => ErrorProcessing pe.2 pe.1) <$> failing
    /\ failing.*1 `sublist_of` paths.
Proof.
  intros fs n paths. induction paths as [|p paths (failing & Hw & Hsub)].
  - by exists [].
  - rewrite from_pkls_stream_cons. simpl.
    rewrite emitted_app, warnings_app, Hw.
    destruct (from_pkls_file_warnings fs n p) as [->|[e ->]].
    + exists failing. split; [done|]. by apply sublist_cons.
    + exists ((p, e) :: failing). split; [done|]. simpl.
      by apply sublist_skip.
Qed.
End StreamTheorems.

(** ** More on the loop of create_and_bulk_documents *)

Section LoopTheorems.
Context {E : Type} (perform : request -> E -> response * E).
Import ElasticSearchProvider.

Lemma perform_request_raise_inv r (w w' : world E) e :
  Elasticsearch.perform_request perform [] r w = (Raise e, w') ->
  e = TransportError (status (perform r (engine w)).1)
  /\ ~ success (perform r (engine w)).1.
Proof.
  unfold Elasticsearch.perform_request, success.
  destruct (perform r (engine w)) as [resp e']. simpl.
  destruct (200 <=? status resp) eqn:Hlo, (status resp <? 300) eqn:Hhi;
    simpl; try done; intros [= <- _]; (split; [done|]).
  - apply Z.ltb_ge in Hhi. lia.
  - apply Z.leb_gt in Hlo. lia.
  - apply Z.leb_gt in Hlo. lia.
Qed.

(** How the loop ends: at the end of the generator, or at a bulk request
    that the engine refuses. *)
Lemma for_entries_outcome batch_size its fin :
  forall self (w : world E) r self' w',
    for_entries its fin (bulk_step perform batch_size) (self, w)
    = (r, (self', w')) ->
    let tag := entry_elastic (index_name self) in
    exists rest sent,
      trace w' = trace w ++ rest
      /\ ((entries self' = Generator [] (Ok tt)
           /\ r = fin
           /\ requests rest = Bulk <$> sent
           /\ locals rest = emitted its
           /\ concat sent ++ doc self' = doc self ++ (tag <$> yielded its))
          \/ (exists s unread,
                r = Raise (TransportError s)
                /\ ~ 200 <= s < 300
                /\ entries self' = Generator unread fin
                /\ requests rest = Bulk <$> (sent ++ [doc self'])
                /\ locals rest ++ emitted unread = emitted its
                /\ concat sent ++ doc self' ++ (tag <$> yielded unread)
                   = doc self ++ (tag <$> yielded its)
                /\ batch_size <= Z.of_nat (length (doc self')))).
Proof.
  induction its as [|[l|entry] its IH]; intros self w r self' w' Hrun.
  - simpl in Hrun. unfold bind, set_entries, modify in Hrun. simpl in Hrun.
    exists [], []. rewrite app_nil_r.
    destruct fin as [[]|e]; injection Hrun as <- <- <-; simpl;
      (split; [done|]); left; split_and!; try done; by rewrite app_nil_r.
  - simpl in Hrun. unfold bind, lift, emit, modify in Hrun. simpl in Hrun.
    apply IH in Hrun as (rest & sent & Ht & Hcase). simpl in *.
    exists (EvLocal l :: rest), sent. rewrite Ht, <- (assoc_L (++)).
    split; [done|]. simpl.
    destruct Hcase as [(Hg & Hr & Hq & Hl & Hc)
                      |(s & unread & Hr & Hs & Hg & Hq & Hl & Hc & Hb)].
    + left. split_and!; try done. by f_equal.
    + right. exists s, unread. split_and!; try done. by f_equal.
  - simpl in Hrun. unfold bind at 1, set_entries, modify in Hrun.
    simpl in Hrun. unfold bind at 1 in Hrun. rewrite bulk_step_run in Hrun.
    simpl in Hrun.
    pose proof (perform_request_trace perform []
      (Bulk (doc self ++ [entry_elastic (index_name self) entry])) w) as Htr.
    fold (Elasticsearch.bulk perform
      (doc self ++ [entry_elastic (index_name self) entry])) in Htr.
    destruct (Z.of_nat (length (doc self ++ _)) >=? batch_size) eqn:Hge.
    + destruct (Elasticsearch.bulk perform _ w) as [[v|e] w1] eqn:Hbulk.
      * apply IH in Hrun as (rest & sent & Ht & Hcase). simpl in *.
        eexists (EvRequest (Bulk _) :: rest), (_ :: sent).
        rewrite Ht, Htr, <- (assoc_L (++)). split; [done|]. simpl.
        destruct Hcase as [(Hg & Hr & Hq & Hl & Hc)
                          |(s & unread & Hr & Hs & Hg & Hq & Hl & Hc & Hb)].
        -- left. split_and!; try done; [by f_equal|].
           by rewrite <- (assoc_L (++)), Hc, <- (assoc_L (++)).
        -- right. exists s, unread. split_and!; try done; [by f_equal|].
           by rewrite <- (assoc_L (++)), Hc, <- (assoc_L (++)).
      * injection Hrun as <- <- <-. simpl in *.
        unfold Elasticsearch.bulk in Hbulk.
        apply perform_request_raise_inv in Hbulk as [-> Hs].
        eexists [EvRequest (Bulk _)], []. rewrite Htr. split; [done|].
        right. eexists _, its. simpl. should_bulk_cases.
        split_and!; try done. by rewrite <- (assoc_L (++)).
    + clear Htr. apply IH in Hrun as (rest & sent & Ht & Hcase).
      simpl in *. exists rest, sent. split; [done|].
      destruct Hcase as [(Hg & Hr & Hq & Hl & Hc)
                        |(s & unread & Hr & Hs & Hg & Hq & Hl & Hc & Hb)].
      * left. split_and!; try done. by rewrite Hc, <- (assoc_L (++)).
      * right. exists s, unread. split_and!; try done.
        by rewrite Hc, <- (assoc_L (++)).
Qed.

(** X8.  When [create_and_bulk_documents] raises although its source does
    not, the engine has refused a bulk request: the error is the transport
    error of a status outside 200..299; the refused batch, the last request
    sent, is still the buffer; the generator holds the records that were not
    read, and nothing of it has run; and the batches sent before, the
    buffer and the unread records are, in this order, the buffer at the
    start and the tagged input. *)
Theorem refused_bulk_keeps_batch_and_unread_records :
  forall (batch_size : Z) (self self' : t) (w w' : world E) (e : exn),
    finish (entries self) = Ok tt ->
    create_and_bulk_documents perform batch_size (self, w)
    = (Raise e, (self', w')) ->
    let tag := entry_elastic (index_name self) in
    exists s sent rest,
      e = TransportError s
      /\ ~ 200 <= s < 300
      /\ trace w' = trace w ++ rest
      /\ requests rest = Bulk <$> (sent ++ [doc self'])
      /\ finish (entries self') = Ok tt
      /\ locals rest ++ emitted (items (entries self'))
         = emitted (items (entries self))
      /\ concat sent ++ doc self'
         ++ (tag <$> yielded (items (entries self')))
         = doc self ++ (tag <$> yielded (items (entries self))).
Proof.
  intros batch_size self self' w w' e Hfin Hrun tag.
  unfold create_and_bulk_documents, bind, this, gets in Hrun.
  simpl in Hrun. rewrite Hfin in Hrun.
  apply for_entries_outcome in Hrun as (rest & sent & Ht & Hcase).
  destruct Hcase as [(_ & Hr & _)
                    |(s & unread & Hr & Hs & Hg & Hq & Hl & Hc & _)];
    [done|].
  injection Hr as ->. exists s, sent, rest. rewrite Hg. simpl.
  split_and!; done.
Qed.

(** With a batch size of at most 1 every record is a batch of its own. *)
Lemma batches_of_one batch_size rs :
  batch_size <= 1 ->
  batches batch_size [] rs = ((fun r => [r]) <$> rs, []).
Proof.
  intros Hb. induction rs as [|r rs IH]; [done|].
  cbn [batches app length].
  destruct (Z.of_nat 1 >=? batch_size) eqn:Hge.
  - by rewrite IH.
  - should_bulk_cases. lia.
Qed.

(** X9.  With a batch size of 1, of 0 or negative, an empty buffer and an
    engine that accepts the bulk requests, every record is sent at once in a
    bulk request of its own, in the order of the input, and the buffer is
    empty at the end. *)
Theorem batch_size_at_most_one_sends_each_record_alone :
  forall (batch_size : Z) (self : t) (w : world E),
    accepts_bulk perform ->
    batch_size <= 1 ->
    doc self = [] ->
    finish (entries self) = Ok tt ->
    exists self' w' rest,
      create_and_bulk_documents perform batch_size (self, w)
      = (Ok tt, (self', w'))
      /\ trace w' = trace w ++ rest
      /\ requests rest
         = (fun entry => Bulk [entry_elastic (index_name self) entry])
           <$> yielded (items (entries self))
      /\ doc self' = [].
Proof.
  intros batch_size self w Hbulk Hb Hdoc Hfin.
  unfold create_and_bulk_documents, bind, this, gets. simpl. rewrite Hfin.
  pose proof (for_entries_ok perform batch_size (items (entries self)) Hbulk
                self w) as Hok.
  destruct (for_entries _ _ _ (self, w)) as [r [self' w']] eqn:Hrun.
  simpl in Hok. subst r.
  apply for_entries_run in Hrun
    as (_ & _ & rest & fl & Ht & Hr & _ & _ & Hres).
  destruct (Hres eq_refl) as (_ & Hfl & Hd & _ & _).
  rewrite Hdoc, batches_of_one in Hfl, Hd by done. simpl in Hfl, Hd.
  exists self', w', rest. split_and!; try done.
  rewrite Hr, Hfl, <- !list_fmap_compose. done.
Qed.

(** X10.  After a call that returned, the source is used up: a further
    call, with any batch size, reads nothing, sends nothing and changes
    nothing, so the records left in the buffer are not sent by it either. *)
Theorem second_call_sends_nothing :
  forall (batch_size again : Z) (self self' : t) (w w' : world E),
    create_and_bulk_documents perform batch_size (self, w)
    = (Ok tt, (self', w')) ->
    create_and_bulk_documents perform again (self', w')
    = (Ok tt, (self', w')).
Proof.
  intros batch_size again self self' w w' Hrun.
  unfold create_and_bulk_documents, bind, this, gets in Hrun.
  simpl in Hrun.
  apply for_entries_run in Hrun as (_ & _ & rest & fl & _ & _ & _ & _ & Hres).
  destruct (Hres eq_refl) as (_ & _ & _ & _ & Hg).
  unfold create_and_bulk_documents, bind, this, gets. simpl. rewrite Hg.
  simpl. unfold bind, set_entries, modify, ret, with_entries. simpl.
  destruct self'. simpl in *. by rewrite Hg.
Qed.
End LoopTheorems.

Lemma refused_bulk_keeps_batch_and_unread_records_witness :
  let run :=
    ElasticSearchProvider.create_and_bulk_documents Engines.refusing_bulk 2
      (Samples.provider_3, ReferenceEngine.empty_world) in
  run.1 = Raise (TransportError 429)
  /\ exists sent rest,
      requests rest = Bulk <$> (sent ++ [ElasticSearchProvider.doc run.2.1])
      /\ ElasticSearchProvider.entries run.2.1
         = Generator [Yield (Samples.paper 3)] (Ok tt).
Proof.
  intros run. split; [reflexivity|].
  destruct (refused_bulk_keeps_batch_and_unread_records
              Engines.refusing_bulk 2 Samples.provider_3 run.2.1
              ReferenceEngine.empty_world run.2.2 (TransportError 429))
    as (s & sent & rest & _ & _ & _ & Hq & _);
    [reflexivity | reflexivity |].
  exists sent, rest. split; [exact Hq | reflexivity].
Defined.

Lemma batch_size_at_most_one_sends_each_record_alone_witness :
  exists self' w' rest,
    ElasticSearchProvider.create_and_bulk_documents ReferenceEngine.perform 0
      (Samples.provider_3, ReferenceEngine.empty_world)
    = (Ok tt, (self', w'))
    /\ trace w' = rest
    /\ length (requests rest) = 3%nat
    /\ ElasticSearchProvider.doc self' = [].
Proof.
  destruct (batch_size_at_most_one_sends_each_record_alone
              ReferenceEngine.perform 0 Samples.provider_3
              ReferenceEngine.empty_world)
    as (self' & w' & rest & Hrun & Ht & Hq & Hd);
    [exact reference_engine_accepts_bulk | lia | reflexivity | reflexivity |].
  exists self', w', rest. split_and!; try done. by rewrite Hq.
Defined.

Lemma second_call_sends_nothing_witness :
  let run :=
    ElasticSearchProvider.create_and_bulk_documents ReferenceEngine.perform 2
      (Samples.provider_3, ReferenceEngine.empty_world) in
  ElasticSearchProvider.create_and_bulk_documents ReferenceEngine.perform 1
    run.2
  = (Ok tt, run.2)
  /\ length (ElasticSearchProvider.doc run.2.1) = 1%nat.
Proof.
  intros run. split; [|reflexivity].
  apply (second_call_sends_nothing ReferenceEngine.perform 2 1
           Samples.provider_3 run.2.1 ReferenceEngine.empty_world run.2.2).
  reflexivity.
Defined.

(** ** More on a full run *)

Section CallTheorems.
Context {E : Type} (perform : request -> E -> response * E).
Import ElasticSearchProvider.

Lemma perform_request_refused ignore r (w : world E) :
  ~ success (perform r (engine w)).1 ->
  status (perform r (engine w)).1 ∉ ignore ->
  Elasticsearch.perform_request perform ignore r w
  = (Raise (TransportError (status (perform r (engine w)).1)),
     World (perform r (engine w)).2 (trace w ++ [EvRequest r])).
Proof.
  unfold Elasticsearch.perform_request, success. intros Hbad Hign.
  destruct (perform r (engine w)) as [resp e']. simpl in *.
  rewrite (bool_decide_eq_false_2 _ Hign).
  destruct (200 <=? status resp) eqn:Hlo, (status resp <? 300) eqn:Hhi;
    simpl; try done.
  apply Z.leb_le in Hlo. apply Z.ltb_lt in Hhi. lia.
Qed.

Lemma perform_request_returned ignore r (w : world E) :
  success (perform r (engine w)).1 \/ status (perform r (engine w)).1 ∈ ignore ->
  Elasticsearch.perform_request perform ignore r w
  = (Ok (body (perform r (engine w)).1),
     World (perform r (engine w)).2 (trace w ++ [EvRequest r])).
Proof.
  unfold Elasticsearch.perform_request, success. intros Hok.
  destruct (perform r (engine w)) as [resp e']. simpl in *.
  destruct ((200 <=? status resp) && (status resp <? 300)) eqn:Hs; [done|].
  destruct Hok as [[Hlo Hhi]|Hin].
  - apply Z.leb_le in Hlo. apply Z.ltb_lt in Hhi.
    by rewrite Hlo, Hhi in Hs.
  - by rewrite (bool_decide_eq_true_2 _ Hin).
Qed.

(** The steps of [__call__], one after the other. *)
Lemma call_run batch_size self (w : world E) :
  let name := index_name self in
  __call__ perform batch_size (self, w) =
    match Elasticsearch.indices_delete perform name [404] w with
    | (Raise e, w1) => (Raise e, (self, w1))
    | (Ok _, w1) =>
        let w2 :=
          World (engine w1)
            (trace w1 ++ [EvLocal (LogInfo (CreatingIndex name))]) in
        match
          Elasticsearch.indices_create perform name (index_file self) w2
        with
        | (Raise e, w3) => (Raise e, (self, w3))
        | (Ok _, w3) =>
            let w4 :=
              World (engine w3)
                (trace w3 ++ [EvLocal (LogInfo CreatingDocuments)]) in
            match create_and_bulk_documents perform batch_size (self, w4) with
            | (Ok _, s5) => (Ok s5.1, s5)
            | (Raise e, s5) => (Raise e, s5)
            end
        end
    end.
Proof.
  intros name. unfold __call__.
  unfold bind at 1. rewrite drop_run. simpl. fold name.
  destruct (Elasticsearch.indices_delete perform name [404] w)
    as [[v1|e1] w1]; [|done]. simpl.
  unfold bind at 1, this, gets. simpl.
  unfold bind at 1, lift, logging.info, emit, modify. simpl.
  unfold bind at 1. rewrite create_index_run. simpl. fold name.
  destruct (Elasticsearch.indices_create perform name (index_file self) _)
    as [[v2|e2] w3]; [|done]. simpl.
  unfold bind at 1, lift, logging.info, emit, modify. simpl.
  unfold bind at 1.
  destruct (create_and_bulk_documents perform batch_size _)
    as [[[]|e3] [self5 w5]]; [|done].
  done.
Qed.

(** A loop on a generator that is used up does nothing. *)
Lemma exhausted_loop_is_noop batch_size self (w : world E) :
  entries self = Generator [] (Ok tt) ->
  create_and_bulk_documents perform batch_size (self, w) = (Ok tt, (self, w)).
Proof.
  intros Hg. unfold create_and_bulk_documents, bind, this, gets. simpl.
  rewrite Hg. simpl. unfold bind, set_entries, modify, ret, with_entries.
  simpl. destruct self. simpl in *. by rewrite Hg.
Qed.

(** X11.  When the engine answers the deletion of the index with a status
    that is neither a success nor 404, [__call__] raises the transport error
    of that status after this one request: the index is not created, no
    record is read, and the provider is as before. *)
Theorem call_stops_when_the_deletion_is_refused :
  forall (batch_size : Z) (self : t) (w : world E),
    let deleted := perform (IndicesDelete (index_name self)) (engine w) in
    ~ success deleted.1 ->
    status deleted.1 <> 404 ->
    __call__ perform batch_size (self, w)
    = (Raise (TransportError (status deleted.1)),
       (self,
        World deleted.2
          (trace w ++ [EvRequest (IndicesDelete (index_name self))]))).
Proof.
  intros batch_size self w deleted Hbad H404.
  rewrite call_run. simpl. unfold Elasticsearch.indices_delete.
  rewrite perform_request_refused; [done | done |].
  intros Hin%list_elem_of_singleton. by apply H404.
Qed.

(** X12.  When the deletion goes through (a success, or 404) and the engine
    refuses the creation of the index, [__call__] raises the transport error
    of that status: it has sent the deletion and the creation, it has read
    no record, opened no file and sent no bulk request, and the provider is
    as before, while the index that was there is gone. *)
Theorem call_stops_when_the_creation_is_refused :
  forall (batch_size : Z) (self : t) (w : world E),
    let name := index_name self in
    let deleted := perform (IndicesDelete name) (engine w) in
    let created := perform (IndicesCreate name (index_file self)) deleted.2 in
    success deleted.1 \/ status deleted.1 = 404 ->
    ~ success created.1 ->
    __call__ perform batch_size (self, w)
    = (Raise (TransportError (status created.1)),
       (self,
        World created.2
          (trace w
           ++ [EvRequest (IndicesDelete name);
               EvLocal (LogInfo (CreatingIndex name));
               EvRequest (IndicesCreate name (index_file self))]))).
Proof.
  intros batch_size self w name deleted created Hdel Hbad.
  rewrite call_run. simpl. fold name.
  unfold Elasticsearch.indices_delete, Elasticsearch.indices_create.
  rewrite perform_request_returned.
  2: { destruct Hdel as [?|H404]; [by left | right].
       fold deleted. rewrite H404. apply list_elem_of_here. }
  simpl. rewrite perform_request_refused; simpl; fold deleted created.
  - by rewrite <- !(assoc_L (++)).
  - done.
  - apply not_elem_of_nil.
Qed.

(** X13.  When a run returns and [__call__] is called again and returns,
    the second run sends the deletion and the creation and nothing else: it
    reads no record and sends no bulk request, so it leaves an index without
    documents, and the buffer is what the first run left. *)
Theorem second_run_leaves_an_empty_index :
  forall (batch_size again : Z) (self self1 self2 : t) (w w1 w2 : world E)
    (r1 r2 : t),
    __call__ perform batch_size (self, w) = (Ok r1, (self1, w1)) ->
    __call__ perform again (self1, w1) = (Ok r2, (self2, w2)) ->
    let name := index_name self in
    trace w2
    = trace w1
      ++ [EvRequest (IndicesDelete name);
          EvLocal (LogInfo (CreatingIndex name));
          EvRequest (IndicesCreate name (index_file self));
          EvLocal (LogInfo CreatingDocuments)]
    /\ self2 = self1.
Proof.
  intros batch_size again self self1 self2 w w1 w2 r1 r2 H1 H2 name.
  rewrite call_run in H1. simpl in H1.
  destruct (Elasticsearch.indices_delete perform _ [404] w)
    as [[v1|e1] wa]; [|done].
  destruct (Elasticsearch.indices_create perform _ _ _)
    as [[v2|e2] wb]; [|done].
  destruct (create_and_bulk_documents perform batch_size _)
    as [[[]|e3] [self5 w5]] eqn:Hloop; [|done].
  injection H1 as <- <- <-.
  unfold create_and_bulk_documents, bind, this, gets in Hloop.
  simpl in Hloop.
  apply for_entries_run in Hloop
    as (Hname & Hfile & rest & fl & _ & _ & _ & _ & Hres).
  destruct (Hres eq_refl) as (_ & _ & _ & _ & Hg). clear Hres. simpl in *.
  rewrite call_run in H2. simpl in H2. rewrite Hname, Hfile in H2.
  fold name in H2.
  pose proof (perform_request_trace perform [404] (IndicesDelete name) w5)
    as Ht1.
  fold (Elasticsearch.indices_delete perform name [404]) in Ht1.
  destruct (Elasticsearch.indices_delete perform name [404] w5)
    as [[v3|e3] wc]; [|done]. simpl in Ht1.
  match type of H2 with
  | context [Elasticsearch.indices_create perform name ?f ?wx] =>
      pose proof (perform_request_trace perform [] (IndicesCreate name f) wx)
        as Ht2;
      fold (Elasticsearch.indices_create perform name f) in Ht2;
      destruct (Elasticsearch.indices_create perform name f wx)
        as [[v4|e4] wd]; [|done]
  end.
  simpl in Ht2. rewrite exhausted_loop_is_noop in H2 by done.
  injection H2 as <- <- <-. simpl. split; [|done].
  rewrite Ht2, Ht1. by rewrite <- !(assoc_L (++)).
Qed.
End CallTheorems.

Lemma call_stops_when_the_deletion_is_refused_witness :
  ElasticSearchProvider.__call__ Engines.unavailable 128
    (Samples.provider_3, World tt [])
  = (Raise (TransportError 503),
     (Samples.provider_3, World tt [EvRequest (IndicesDelete "covid-19")])).
Proof.
  apply (call_stops_when_the_deletion_is_refused Engines.unavailable 128
           Samples.provider_3 (World tt [])).
  - unfold success. simpl. lia.
  - simpl. lia.
Defined.

Lemma call_stops_when_the_creation_is_refused_witness :
  ElasticSearchProvider.__call__ Engines.refusing_create 128
    (Samples.provider_3, ReferenceEngine.empty_world)
  = (Raise (TransportError 403),
     (Samples.provider_3,
      World ∅
        [EvRequest (IndicesDelete "covid-19");
         EvLocal (LogInfo (CreatingIndex "covid-19"));
         EvRequest (IndicesCreate "covid-19" Samples.mapping)])).
Proof.
  apply (call_stops_when_the_creation_is_refused Engines.refusing_create 128
           Samples.provider_3 ReferenceEngine.empty_world).
  - right. reflexivity.
  - unfold success. simpl. lia.
Defined.

Lemma second_run_leaves_an_empty_index_witness :
  let tag := ElasticSearchProvider.entry_elastic "covid-19" in
  let self1 :=
    ElasticSearchProvider.Make (Generator [] (Ok tt)) Samples.mapping
      [tag (Samples.paper 3)] "covid-19" in
  let run :=
    [EvRequest (IndicesDelete "covid-19");
     EvLocal (LogInfo (CreatingIndex "covid-19"));
     EvRequest (IndicesCreate "covid-19" Samples.mapping);
     EvLocal (LogInfo CreatingDocuments)] in
  let bulk := EvRequest (Bulk [tag (Samples.paper 1); tag (Samples.paper 2)]) in
  let w1 : world ReferenceEngine.t :=
    World {[ "covid-19" := [Samples.paper 1; Samples.paper 2] ]}
      (run ++ [bulk]) in
  let w2 : world ReferenceEngine.t :=
    World {[ "covid-19" := [] ]} ((run ++ [bulk]) ++ run) in
  ElasticSearchProvider.__call__ ReferenceEngine.perform 2 (self1, w1)
  = (Ok self1, (self1, w2))
  /\ trace w2 = trace w1 ++ run.
Proof.
  intros tag self1 run bulk w1 w2.
  pose proof (second_run_leaves_an_empty_index ReferenceEngine.perform 2 2
                Samples.provider_3 self1 self1
                ReferenceEngine.empty_world w1 w2 self1 self1) as H.
  assert (H1 : ElasticSearchProvider.__call__ ReferenceEngine.perform 2
                 (Samples.provider_3, ReferenceEngine.empty_world)
               = (Ok self1, (self1, w1)))
    by (vm_cast_no_check (eq_refl (Ok self1, (self1, w1)))).
  assert (H2 : ElasticSearchProvider.__call__ ReferenceEngine.perform 2
                 (self1, w1)
               = (Ok self1, (self1, w2)))
    by (vm_cast_no_check (eq_refl (Ok self1, (self1, w2)))).
  destruct (H H1 H2) as [Ht _]. split; [exact H2 | exact Ht].
Defined.

(** ** More on the two loaders *)

Section LoaderTheorems.
Context {E : Type}.
Import ElasticSearchProvider.

(** X14.  [from_pkl] on a file that can be read returns a provider, and a
    run of that provider never returns, whatever the file holds and
    whatever the engine: it raises, it sends no bulk request, at most the
    deletion and the creation of the index; and when the engine accepts
    every request the error is the unbound local [entries], raised after
    the index has been deleted and created. *)
Theorem from_pkl_run_never_returns :
  forall (fs : filesystem) (file_path : string) (n_paragraphs : Z)
    (mapping : record) (read : list record) (w : world E),
    pickle_load (content fs file_path) = Ok read ->
    exists provider w1,
      from_pkl fs file_path n_paragraphs mapping w = (Ok provider, w1)
      /\ forall (perform : request -> E -> response * E) (batch_size : Z),
          let out := __call__ perform batch_size (provider, w1) in
          (exists e, out.1 = Raise e)
          /\ (exists sent,
                requests (trace out.2.2) = requests (trace w1) ++ sent
                /\ sent `prefix_of`
                     [IndicesDelete default_index_name;
                      IndicesCreate default_index_name mapping])
          /\ (accepts_all perform ->
              out.1 = Raise (UnboundLocalError "entries")
              /\ requests (trace out.2.2)
                 = requests (trace w1)
                   ++ [IndicesDelete default_index_name;
                       IndicesCreate default_index_name mapping]).
Proof.
  intros fs file_path n mapping read w Hload.
  eexists _, _. split.
  { unfold from_pkl, bind, emit, logging.info, emit, modify, ret. simpl.
    rewrite Hload. reflexivity. }
  intros perform batch_size. simpl.
  set (w1 := World (engine w) _).
  set (provider := Make _ _ _ _).
  rewrite call_run. simpl.
  pose proof (perform_request_trace perform [404]
                (IndicesDelete default_index_name) w1) as Ht1.
  pose proof (perform_request_success perform [404]
                (IndicesDelete default_index_name) w1) as Hs1.
  fold (Elasticsearch.indices_delete perform default_index_name [404])
    in Ht1, Hs1.
  destruct (Elasticsearch.indices_delete perform default_index_name [404] w1)
    as [[v1|e1] wa]; simpl in *.
  2: { split_and!.
       - by eexists.
       - exists [IndicesDelete default_index_name].
         rewrite Ht1, requests_app. split; [done|].
         apply prefix_cons, prefix_nil.
       - intros Hall. by specialize (Hs1 (Hall _ _)). }
  match goal with
  | |- context [Elasticsearch.indices_create perform ?nm ?f ?wx] =>
      pose proof (perform_request_trace perform [] (IndicesCreate nm f) wx)
        as Ht2;
      pose proof (perform_request_success perform [] (IndicesCreate nm f) wx)
        as Hs2;
      fold (Elasticsearch.indices_create perform nm f) in Ht2, Hs2;
      destruct (Elasticsearch.indices_create perform nm f wx)
        as [[v2|e2] wb]
  end; simpl in *.
  2: { split_and!.
       - by eexists.
       - exists [IndicesDelete default_index_name;
                 IndicesCreate default_index_name mapping].
         rewrite Ht2, Ht1, !requests_app. simpl.
         split; [by rewrite <- !(assoc_L (++)) | done].
       - intros Hall. by specialize (Hs2 (Hall _ _)). }
  assert (Hreq : requests (trace wb ++ [EvLocal (LogInfo CreatingDocuments)])
                 = requests (trace w1)
                   ++ [IndicesDelete default_index_name;
                       IndicesCreate default_index_name mapping]).
  { unfold w1. rewrite Ht2, Ht1. simpl. rewrite !requests_app. simpl.
    by rewrite !app_nil_r, <- !(assoc_L (++)). }
  split_and!.
  - by eexists.
  - eexists. split; [exact Hreq | done].
  - intros _. split; [done | exact Hreq].
Qed.

(** A listing of files that cannot be read yields no record and logs one
    warning for each file. *)
Lemma unreadable_files_yield_nothing fs n paths :
  Forall (fun p => exists e, pickle_load (content fs p) = Raise e) paths ->
  yielded (from_pkls_stream fs paths n).1 = []
  /\ length (warnings (emitted (from_pkls_stream fs paths n).1))
     = length paths.
Proof.
  induction 1 as [|p paths [e Hload] _ [IHy IHw]]; [done|].
  rewrite from_pkls_stream_cons. simpl.
  rewrite (from_pkls_file_load_error _ _ _ _ Hload). simpl.
  split; [done | by f_equal].
Qed.
End LoaderTheorems.

Lemma from_pkl_run_never_returns_witness :
  exists provider w1,
    ElasticSearchProvider.from_pkl Samples.disk "data/a.pkl" 100
      Samples.mapping ReferenceEngine.empty_world
    = (Ok provider, w1)
    /\ (ElasticSearchProvider.__call__ Engines.refusing_bulk 128
          (provider, w1)).1
       = Raise (UnboundLocalError "entries").
Proof.
  destruct (from_pkl_run_never_returns Samples.disk "data/a.pkl" 100
              Samples.mapping [Samples.full_paper; Samples.paper 7]
              ReferenceEngine.empty_world eq_refl)
    as (provider & w1 & Hfrom & Hrun).
  exists provider, w1. split; [exact Hfrom|].
  destruct (Hrun Engines.refusing_bulk 128) as ([e He] & _ & _).
  injection Hfrom as <- <-. reflexivity.
Defined.

(** ** From the files to the engine *)

Section EndToEnd.
Context {E : Type} (perform : request -> E -> response * E).
Import ElasticSearchProvider.

(** X15.  Against an engine that accepts every request, a run of the
    provider of [from_pkls] returns whatever the files hold, unreadable
    files and records that raise included.  [from_pkls] itself opens no
    file: it logs how many it found.  The run deletes and creates the
    index, and only then opens the files, each once and in the order of the
    listing, while it sends the bulk requests; the records sent and those
    left in the buffer are the tagged records of the stream, in order. *)
Theorem from_pkls_run_returns_whatever_the_files_hold :
  forall (fs : filesystem) (root : string) (n_paragraphs : Z)
    (mapping : record) (batch_size : Z) (w : world E),
    accepts_all perform ->
    let name := default_index_name in
    let paths := glob_pkl fs root in
    exists provider w0 self' w' rest flushes,
      from_pkls fs root n_paragraphs mapping w = (Ok provider, w0)
      /\ trace w0
         = trace w ++ [EvLocal (LogInfo (FoundFiles (length paths) root))]
      /\ __call__ perform batch_size (provider, w0) = (Ok self', (self', w'))
      /\ trace w'
         = trace w0
           ++ [EvRequest (IndicesDelete name);
               EvLocal (LogInfo (CreatingIndex name));
               EvRequest (IndicesCreate name mapping);
               EvLocal (LogInfo CreatingDocuments)]
           ++ rest
      /\ requests rest = Bulk <$> flushes
      /\ opened (locals rest) = paths
      /\ concat flushes ++ doc self'
         = entry_elastic name
           <$> yielded (from_pkls_stream fs paths n_paragraphs).1.
Proof.
  intros fs root n mapping batch_size w Hall name paths.
  assert (Hbulk : accepts_bulk perform) by (intros a e; apply Hall).
  pose (w0 :=
    World (engine w)
      (trace w ++ [EvLocal (LogInfo (FoundFiles (length paths) root))])).
  pose (provider :=
    Make (run_generator (from_pkls_stream fs paths n)) mapping []
      default_index_name).
  exists provider, w0.
  rewrite call_run. simpl. fold name.
  unfold Elasticsearch.indices_delete, Elasticsearch.indices_create.
  rewrite perform_request_returned by (left; apply Hall). simpl.
  rewrite perform_request_returned by (left; apply Hall). simpl.
  match goal with
  | |- context [create_and_bulk_documents perform batch_size (provider, ?wx)] =>
      set (w4 := wx)
  end.
  unfold create_and_bulk_documents, bind, this, gets. simpl.
  rewrite from_pkls_stream_ok.
  pose proof (for_entries_ok perform batch_size
                (from_pkls_stream fs paths n).1 Hbulk provider w4) as Hok.
  destruct (for_entries _ _ _ (provider, w4)) as [r [self' w']] eqn:Hrun.
  simpl in Hok. subst r.
  apply for_entries_run in Hrun
    as (_ & _ & rest & fl & Ht & Hr & _ & _ & Hres).
  destruct (Hres eq_refl) as (_ & Hfl & Hd & Hl & _). clear Hres.
  simpl in *. exists self', w', rest, fl.
  split_and!; try done.
  - rewrite Ht. unfold w4. simpl. by rewrite <- !(assoc_L (++)).
  - rewrite Hl. apply from_pkls_stream_opened.
  - rewrite Hfl, Hd. apply batches_concat.
Qed.

(** X16.  When none of the listed files can be read, or none is listed, a
    run of the provider of [from_pkls] that returns has deleted the index
    and created it again without documents: it has sent these two requests
    and no bulk request, the buffer is empty, and it has logged one warning
    for each file. *)
Theorem unreadable_files_leave_an_empty_index :
  forall (fs : filesystem) (root : string) (n_paragraphs : Z)
    (mapping : record) (batch_size : Z) (w w0 w' : world E)
    (provider returned self' : t),
    Forall (fun p => exists e, pickle_load (content fs p) = Raise e)
      (glob_pkl fs root) ->
    from_pkls fs root n_paragraphs mapping w = (Ok provider, w0) ->
    __call__ perform batch_size (provider, w0) = (Ok returned, (self', w')) ->
    exists rest,
      trace w' = trace w0 ++ rest
      /\ requests rest
         = [IndicesDelete default_index_name;
            IndicesCreate default_index_name mapping]
      /\ length (warnings (locals rest)) = length (glob_pkl fs root)
      /\ doc self' = [].
Proof.
  intros fs root n mapping batch_size w w0 w' provider returned self'
    Hfiles Hfrom Hrun.
  destruct (unreadable_files_yield_nothing fs n _ Hfiles) as [Hy Hw].
  unfold from_pkls, bind, logging.info, emit, modify, ret in Hfrom.
  simpl in Hfrom. injection Hfrom as <- <-.
  rewrite call_run in Hrun. simpl in Hrun.
  match type of Hrun with
  | context [Elasticsearch.indices_delete perform ?nm [404] ?wx] =>
      pose proof (perform_request_trace perform [404] (IndicesDelete nm) wx)
        as Ht1;
      fold (Elasticsearch.indices_delete perform nm [404]) in Ht1;
      destruct (Elasticsearch.indices_delete perform nm [404] wx)
        as [[v1|e1] wa]; [|done]
  end.
  match type of Hrun with
  | context [Elasticsearch.indices_create perform ?nm ?f ?wx] =>
      pose proof (perform_request_trace perform [] (IndicesCreate nm f) wx)
        as Ht2;
      fold (Elasticsearch.indices_create perform nm f) in Ht2;
      destruct (Elasticsearch.indices_create perform nm f wx)
        as [[v2|e2] wb]; [|done]
  end.
  destruct (create_and_bulk_documents perform batch_size _)
    as [[[]|e3] [self5 w5]] eqn:Hloop; [|done].
  injection Hrun as <- <- <-.
  unfold create_and_bulk_documents, bind, this, gets in Hloop.
  simpl in Hloop.
  apply for_entries_run in Hloop
    as (_ & _ & rest & fl & Ht & Hr & _ & _ & Hres).
  destruct (Hres eq_refl) as (_ & Hfl & Hd & Hl & _). clear Hres.
  simpl in *. rewrite Hy in Hfl, Hd. simpl in Hfl, Hd. subst fl.
  eexists. split.
  { rewrite Ht. simpl. rewrite Ht2. simpl. rewrite Ht1. simpl.
    rewrite <- !(assoc_L (++)). reflexivity. }
  rewrite !requests_app, !locals_app, !warnings_app, Hr, Hl. simpl.
  rewrite Hw. done.
Qed.
End EndToEnd.

Lemma from_pkls_run_returns_whatever_the_files_hold_witness :
  exists provider w0 self' w',
    ElasticSearchProvider.from_pkls Samples.disk "data" 2 Samples.mapping
      (World tt [])
    = (Ok provider, w0)
    /\ ElasticSearchProvider.__call__ Engines.accepting 2 (provider, w0)
       = (Ok self', (self', w'))
    /\ opened (locals (trace w'))
       = ["data/a.pkl"; "data/broken.pkl"; "data/partial.pkl";
          "data/uneven.pkl"].
Proof.
  destruct (from_pkls_run_returns_whatever_the_files_hold Engines.accepting
              Samples.disk "data" 2 Samples.mapping 2 (World tt []))
    as (provider & w0 & self' & w' & rest & flushes & Hfrom & Ht0 & Hrun
        & Ht & _ & Hopened & _).
  - intros r e. unfold success. simpl. lia.
  - exists provider, w0, self', w'. split_and!; [exact Hfrom | exact Hrun |].
    rewrite Ht, Ht0, !locals_app, !opened_app, Hopened. reflexivity.
Defined.

Lemma unreadable_files_leave_an_empty_index_witness :
  let provider :=
    ElasticSearchProvider.Make
      (run_generator
         (ElasticSearchProvider.from_pkls_stream Engines.unreadable_disk
            ["x/a.pkl"; "x/b.pkl"] 100))
      Samples.mapping [] "covid-19" in
  let w0 : world unit := World tt [EvLocal (LogInfo (FoundFiles 2 "x"))] in
  let run := ElasticSearchProvider.__call__ Engines.accepting 128 (provider, w0) in
  exists rest,
    trace run.2.2 = trace w0 ++ rest
    /\ requests rest
       = [IndicesDelete "covid-19"; IndicesCreate "covid-19" Samples.mapping]
    /\ length (warnings (locals rest)) = 2%nat.
Proof.
  intros provider w0 run.
  destruct (unreadable_files_leave_an_empty_index Engines.accepting
              Engines.unreadable_disk "x" 100 Samples.mapping 128
              (World tt []) w0 run.2.2 provider run.2.1 run.2.1)
    as (rest & Ht & Hq & Hw & _).
  - repeat constructor; eexists; reflexivity.
  - reflexivity.
  - reflexivity.
  - exists rest. split_and!; done.
Defined.

(** ** More on the query *)

(** X17.  When the engine answers the search with a status outside
    200..299, a missing index (404) included, [Elasticsearcher.__call__]
    raises the transport error of that status: nothing is ignored, nothing
    is tried again, and the one request sent is the search. *)
Theorem search_errors_are_raised :
  forall {E : Type} (perform : request -> E -> response * E)
    (self : Elasticsearcher.t) (vector : list value) (w : world E),
    let req :=
      Search (Elasticsearcher.index_name self)
        (Elasticsearcher.request_body vector) in
    ~ success (perform req (engine w)).1 ->
    Elasticsearcher.__call__ perform self vector w
    = (Raise (TransportError (status (perform req (engine w)).1)),
       World (perform req (engine w)).2 (trace w ++ [EvRequest req])).
Proof.
  intros E perform self vector w req Hbad.
  rewrite searcher_call_run. unfold Elasticsearch.search.
  apply perform_request_refused; [done | apply not_elem_of_nil].
Qed.

Lemma search_errors_are_raised_witness :
  Elasticsearcher.__call__ ReferenceEngine.perform
    (Elasticsearcher.Make "covid-19") [VFloat 1 (-1)]
    ReferenceEngine.empty_world
  = (Raise (TransportError 404),
     World ∅
       [EvRequest
          (Search "covid-19"
             (Elasticsearcher.request_body [VFloat 1 (-1)]))]).
Proof.
  apply (search_errors_are_raised ReferenceEngine.perform
           (Elasticsearcher.Make "covid-19") [VFloat 1 (-1)]
           ReferenceEngine.empty_world).
  unfold success. vm_compute. intros [_ H]. discriminate H.
Defined.
